(** * doccano: the web/API layer (app/server/views.py)

    A shallow embedding of the views, the permission classes, the CSV bulk
    import and the statistics endpoints of app/server/views.py, over an
    explicit database state.  Python exceptions are values of [exn]; a
    computation that may raise returns a [result]. *)

From stdpp Require Import base option list gmap strings pretty.
From Stdlib Require Import ZArith DecimalString.

Open Scope Z_scope.

(** ** Exceptions and results *)

Inductive exn :=
  | Http404 | KeyError | IndexError | AttributeError | UnboundLocalError
  | DoesNotExist | MultipleObjectsReturned | ValueError | TypeError
  | UnicodeDecodeError | NotAuthenticated | PermissionDenied.

Inductive result (A : Type) :=
  | Ok (a : A)
  | Raise (e : exn).
Arguments Ok {A} a.
Arguments Raise {A} e.

#[global] Instance exn_eq_dec : EqDecision exn.
Proof. solve_decision. Defined.

#[global] Instance result_eq_dec {A} `{EqDecision A} : EqDecision (result A).
Proof. solve_decision. Defined.

#[global] Instance result_ret : MRet result := fun A a => Ok a.
#[global] Instance result_bind : MBind result := fun A B f m =>
  match m with
  | Ok a => f a
  | Raise e => Raise e
  end.

(** [for x in xs: f x], collecting the values, stopping at the first
    exception (a list comprehension whose element expression may raise). *)
Fixpoint for_each {A B} (f : A → result B) (xs : list A) : result (list B) :=
  match xs with
  | [] => Ok []
  | x :: xs' => y ← f x; ys ← for_each f xs'; Ok (y :: ys)
  end.

(** ** The model layer

    app/server/models.py is outside the excerpt; the records below carry the
    fields that views.py reads and writes.  A foreign key is kept as the key
    of the row it refers to. *)

(** Modelled from the spec: the project_type tag of models.py, "selecting one
    of {document classification, sequence labeling, sequence-to-sequence}".
    The column is a character field, so a row may also hold some other tag. *)
Inductive project_type :=
  | DOCUMENT_CLASSIFICATION
  | SEQUENCE_LABELING
  | Seq2seq
  | OtherType (tag : string).

#[global] Instance project_type_eq_dec : EqDecision project_type.
Proof. solve_decision. Defined.

(** The user model of the framework: key, username and the staff flag that
    IsAdminUser reads. *)
Module User.
Record t := { id : Z; username : string; is_staff : bool }.
End User.

(** Modelled from the spec: the Project model of models.py, "name,
    description, a project_type tag ...; owns a set of Documents, Labels,
    and Users". *)
Module Project.
Record t := {
  id : Z;
  name : string;
  description : string;
  project_type : project_type;
  users : list Z  (* the many-to-many relation, as the members' keys *)
}.
End Project.

(** Modelled from the spec: the Label model of models.py, "a named category
    scoped to one Project". *)
Module Label.
Record t := { id : Z; text : string; project : Z }.
End Label.

(** Modelled from the spec: the Document model of models.py, "free text
    plus a back-reference to its Project". *)
Module Document.
Record t := { id : Z; text : string; project : Z }.
End Document.

(** Modelled from the spec: the three annotation models of models.py,
    "DocumentAnnotation (document+label), SequenceAnnotation
    (document+label+start/end offset), Seq2seqAnnotation (document+free
    text).  Each records the authoring user and a manual/automatic flag."
    The fields are those that views.py passes to the constructors. *)
Module DocumentAnnotation.
Record t := { id : Z; document : Z; label : Z; manual : bool; user : Z }.
End DocumentAnnotation.

Module SequenceAnnotation.
Record t := {
  id : Z; document : Z; label : Z; manual : bool; user : Z;
  start_offset : Z; end_offset : Z
}.
End SequenceAnnotation.

Module Seq2seqAnnotation.
Record t := { id : Z; document : Z; text : string; manual : bool; user : Z }.
End Seq2seqAnnotation.

(** An instance of one of the three annotation classes. *)
Inductive Annotation :=
  | ADoc (a : DocumentAnnotation.t)
  | ASeq (a : SequenceAnnotation.t)
  | AS2S (a : Seq2seqAnnotation.t).

Inductive annotation_class :=
  | DocumentAnnotationCls | SequenceAnnotationCls | Seq2seqAnnotationCls.

Definition annotation_id (a : Annotation) : Z :=
  match a with
  | ADoc a => DocumentAnnotation.id a
  | ASeq a => SequenceAnnotation.id a
  | AS2S a => Seq2seqAnnotation.id a
  end.

Definition annotation_document (a : Annotation) : Z :=
  match a with
  | ADoc a => DocumentAnnotation.document a
  | ASeq a => SequenceAnnotation.document a
  | AS2S a => Seq2seqAnnotation.document a
  end.

Definition annotation_user (a : Annotation) : Z :=
  match a with
  | ADoc a => DocumentAnnotation.user a
  | ASeq a => SequenceAnnotation.user a
  | AS2S a => Seq2seqAnnotation.user a
  end.

Definition annotation_manual (a : Annotation) : bool :=
  match a with
  | ADoc a => DocumentAnnotation.manual a
  | ASeq a => SequenceAnnotation.manual a
  | AS2S a => Seq2seqAnnotation.manual a
  end.

Definition class_of (a : Annotation) : annotation_class :=
  match a with
  | ADoc _ => DocumentAnnotationCls
  | ASeq _ => SequenceAnnotationCls
  | AS2S _ => Seq2seqAnnotationCls
  end.

(** The database: one table per model, rows in insertion order. *)
Module DB.
Record t := {
  users : list User.t;
  projects : list Project.t;
  labels : list Label.t;
  documents : list Document.t;
  doc_annotations : list DocumentAnnotation.t;
  seq_annotations : list SequenceAnnotation.t;
  seq2seq_annotations : list Seq2seqAnnotation.t
}.
End DB.

(** [Annotation.objects.all()] for an annotation class. *)
Definition objects_all (db : DB.t) (cls : annotation_class) : list Annotation :=
  match cls with
  | DocumentAnnotationCls => ADoc <$> DB.doc_annotations db
  | SequenceAnnotationCls => ASeq <$> DB.seq_annotations db
  | Seq2seqAnnotationCls => AS2S <$> DB.seq2seq_annotations db
  end.

(** ** Query helpers of the framework *)

(** [pk=v] where [v] may be [None]: no row has a null key. *)
Definition pk_is (v : option Z) (k : Z) : bool :=
  match v with
  | Some n => bool_decide (k = n)
  | None => false
  end.

(** [QuerySet.get]: exactly one row, else DoesNotExist or
    MultipleObjectsReturned. *)
Definition queryset_get {A} (rows : list A) : result A :=
  match rows with
  | [] => Raise DoesNotExist
  | [x] => Ok x
  | _ => Raise MultipleObjectsReturned
  end.

(** [get_object_or_404]: [QuerySet.get] with DoesNotExist turned into Http404. *)
Definition get_object_or_404 {A} (rows : list A) : result A :=
  match queryset_get rows with
  | Raise DoesNotExist => Raise Http404
  | r => r
  end.

Definition get_project (db : DB.t) (pk : option Z) : result Project.t :=
  get_object_or_404 (filter (λ p, pk_is pk (Project.id p) = true) (DB.projects db)).

Definition get_document (db : DB.t) (pk : option Z) : result Document.t :=
  get_object_or_404 (filter (λ d, pk_is pk (Document.id d) = true) (DB.documents db)).

Definition get_label (db : DB.t) (pk : option Z) : result Label.t :=
  get_object_or_404 (filter (λ l, pk_is pk (Label.id l) = true) (DB.labels db)).

(** [project.users.all()]: the user rows related to the project. *)
Definition project_users_all (db : DB.t) (p : Project.t) : list User.t :=
  filter (λ u, User.id u ∈ Project.users p) (DB.users db).

(** [project.documents.all()], [project.labels.all()]: reverse foreign keys. *)
Definition project_documents_all (db : DB.t) (p : Project.t) : list Document.t :=
  filter (λ d, Document.project d = Project.id p) (DB.documents db).

Definition project_labels_all (db : DB.t) (p : Project.t) : list Label.t :=
  filter (λ l, Label.project l = Project.id p) (DB.labels db).

(** Modelled from the spec: [Project.is_type_of] of models.py, the test of
    the project_type tag. *)
Definition is_type_of (p : Project.t) (ty : project_type) : bool :=
  bool_decide (Project.project_type p = ty).

(** Modelled from the spec: [Project.get_annotation_class] of models.py,
    "project_type determines which Annotation subtype ... [is] valid for its
    documents"; no subtype is valid for another tag. *)
Definition get_annotation_class (p : Project.t) : result annotation_class :=
  if is_type_of p DOCUMENT_CLASSIFICATION then Ok DocumentAnnotationCls
  else if is_type_of p SEQUENCE_LABELING then Ok SequenceAnnotationCls
  else if is_type_of p Seq2seq then Ok Seq2seqAnnotationCls
  else Raise ValueError.

(** Modelled from the spec: [Project.get_annotation_serializer] of models.py,
    "project_type determines ... which serializer class [is] valid"; the
    serializer class is named by the annotation class it serializes. *)
Definition get_annotation_serializer (p : Project.t) : result annotation_class :=
  get_annotation_class p.

(** Modelled from the spec: [Document.get_annotations] of models.py, the
    annotations a document owns, of the "variant ... selected by [the]
    project-type tag" of the document's project [p]. *)
Definition get_annotations (db : DB.t) (p : Project.t) (doc : Document.t)
    : list Annotation :=
  match get_annotation_class p with
  | Ok cls =>
      filter (λ a, annotation_document a = Document.id doc) (objects_all db cls)
  | Raise _ => []
  end.

(** Modelled from the spec: [Project.get_documents] of models.py, the
    project's documents that have no annotation yet ([is_null = true]) or
    have some ([is_null = false]). *)
Definition get_documents (db : DB.t) (p : Project.t) (is_null : bool)
    : list Document.t :=
  filter (λ d, bool_decide (get_annotations db p d = []) = is_null)
         (project_documents_all db p).

(** ** Requests *)

(** A value of [request.data] after decoding. *)
Inductive value :=
  | VInt (n : Z)
  | VStr (s : string).

(** The uploaded file as [csv.reader] presents it: each step of the iteration
    yields a row (a list of cells, empty for a blank line) or raises (a
    decoding or CSV error). *)
Abbreviation csv_file := (list (result (list string))).

Inductive request_user :=
  | AnonymousUser
  | AuthUser (u : User.t).

Module Request.
Record t := {
  method : string;
  user : request_user;
  data : gmap string value;
  FILES : gmap string csv_file
}.
End Request.

(** The keyword arguments captured from the URL. *)
Abbreviation kwargs := (gmap string Z).

(** [d[k]] on a dict. *)
Definition getitem {V} (d : gmap string V) (k : string) : result V :=
  match d !! k with
  | Some v => Ok v
  | None => Raise KeyError
  end.

(** ** Permission classes *)

(** rest_framework.permissions.SAFE_METHODS *)
Definition SAFE_METHODS : list string := ["GET"; "HEAD"; "OPTIONS"]%string.

(** [user == other] between a stored user key and the request's user: model
    instances are equal when their keys are; AnonymousUser equals no row. *)
Definition user_eq (uid : Z) (u : request_user) : bool :=
  match u with
  | AnonymousUser => false
  | AuthUser u => bool_decide (uid = User.id u)
  end.

(** [user in queryset] *)
Definition user_in (u : request_user) (rows : list User.t) : bool :=
  existsb (λ r, user_eq (User.id r) u) rows.

Definition IsAuthenticated_has_permission (request : Request.t) : bool :=
  match Request.user request with
  | AnonymousUser => false
  | AuthUser _ => true
  end.

Definition IsAdminUser_has_permission (request : Request.t) : bool :=
  match Request.user request with
  | AnonymousUser => false
  | AuthUser u => User.is_staff u
  end.

Definition IsProjectUser_has_permission
    (db : DB.t) (request : Request.t) (kw : kwargs) : result bool :=
  let user := Request.user request in
  let project_id := kw !! "project_id"%string in
  project ← get_project db project_id;
  Ok (user_in user (project_users_all db project)).

Definition IsAdminUserAndWriteOnly_has_permission (request : Request.t) : bool :=
  if bool_decide (Request.method request ∈ SAFE_METHODS) then true
  else IsAdminUser_has_permission request.

Definition IsOwnAnnotation_has_permission
    (db : DB.t) (request : Request.t) (kw : kwargs) : result bool :=
  let user := Request.user request in
  let project_id := kw !! "project_id"%string in
  let annotation_id' := kw !! "annotation_id"%string in
  project ← get_project db project_id;
  Annotation ← get_annotation_class project;
  annotation ← queryset_get
    (filter (λ a, pk_is annotation_id' (annotation_id a) = true)
            (objects_all db Annotation));
  Ok (user_eq (annotation_user annotation) user).

Inductive permission :=
  | IsAuthenticated | IsAdminUser | IsProjectUser
  | IsAdminUserAndWriteOnly | IsOwnAnnotation.

Definition has_permission
    (perm : permission) (db : DB.t) (request : Request.t) (kw : kwargs)
    : result bool :=
  match perm with
  | IsAuthenticated => Ok (IsAuthenticated_has_permission request)
  | IsAdminUser => Ok (IsAdminUser_has_permission request)
  | IsProjectUser => IsProjectUser_has_permission db request kw
  | IsAdminUserAndWriteOnly => Ok (IsAdminUserAndWriteOnly_has_permission request)
  | IsOwnAnnotation => IsOwnAnnotation_has_permission db request kw
  end.

(** [APIView.permission_denied] *)
Definition permission_denied {A} (request : Request.t) : result A :=
  match Request.user request with
  | AnonymousUser => Raise NotAuthenticated
  | AuthUser _ => Raise PermissionDenied
  end.

(** [APIView.check_permissions]: every class of [permission_classes], in
    order; the first that does not grant ends the request. *)
Fixpoint check_permissions
    (perms : list permission) (db : DB.t) (request : Request.t) (kw : kwargs)
    : result unit :=
  match perms with
  | [] => Ok ()
  | perm :: rest =>
      granted ← has_permission perm db request kw;
      if granted : bool then check_permissions rest db request kw
      else permission_denied request
  end.

(** ** Responses *)

(** [reverse(name, args=[...])]: the URL configuration is outside the
    excerpt, so a URL is kept as the route name and its arguments. *)
Inductive url := reverse (name : string) (args : list Z).

#[local] Unset Elimination Schemes.
Inductive json :=
  | JNum (n : Z)
  | JString (s : string)
  | JArray (items : list json)
  | JObject (fields : list (string * json)).
#[local] Set Elimination Schemes.

(** What a response carries: a dictionary built by the view, or the [data]
    of a serializer (serializers.py is outside the excerpt), kept as the
    instance or the rows handed to the serializer. *)
Inductive response_data :=
  | Data (j : json)
  | AnnotationSerializerData (cls : annotation_class) (a : Annotation)
  | LabelSerializerData (rows : list Label.t).

Inductive response :=
  | HttpResponseRedirect (to : url)
  | Response (data : response_data).

(** ** Saving rows *)

(** The key an AutoField gives a new row. *)
Definition next_id (ids : list Z) : Z := 1 + foldr Z.max 0 ids.

(** [Document(text=text, project=project).save()] *)
Definition Document_save (db : DB.t) (text : string) (project : Project.t)
    : DB.t :=
  let doc := {| Document.id := next_id (Document.id <$> DB.documents db);
                Document.text := text;
                Document.project := Project.id project |} in
  {| DB.users := DB.users db; DB.projects := DB.projects db;
     DB.labels := DB.labels db;
     DB.documents := DB.documents db ++ [doc];
     DB.doc_annotations := DB.doc_annotations db;
     DB.seq_annotations := DB.seq_annotations db;
     DB.seq2seq_annotations := DB.seq2seq_annotations db |}.

(** [annotation.save()] of an instance that has no key yet: the row is
    inserted under a fresh key; the saved instance is returned with it.
    Constraints that models.py may declare on the tables are outside the
    excerpt, and so is the range of the integer columns of the database:
    an insertion always goes through. *)
Definition Annotation_insert (db : DB.t) (a : Annotation) : DB.t * Annotation :=
  match a with
  | ADoc a =>
      let row := {| DocumentAnnotation.id :=
                      next_id (DocumentAnnotation.id <$> DB.doc_annotations db);
                    DocumentAnnotation.document := DocumentAnnotation.document a;
                    DocumentAnnotation.label := DocumentAnnotation.label a;
                    DocumentAnnotation.manual := DocumentAnnotation.manual a;
                    DocumentAnnotation.user := DocumentAnnotation.user a |} in
      ({| DB.users := DB.users db; DB.projects := DB.projects db;
          DB.labels := DB.labels db; DB.documents := DB.documents db;
          DB.doc_annotations := DB.doc_annotations db ++ [row];
          DB.seq_annotations := DB.seq_annotations db;
          DB.seq2seq_annotations := DB.seq2seq_annotations db |}, ADoc row)
  | ASeq a =>
      let row := {| SequenceAnnotation.id :=
                      next_id (SequenceAnnotation.id <$> DB.seq_annotations db);
                    SequenceAnnotation.document := SequenceAnnotation.document a;
                    SequenceAnnotation.label := SequenceAnnotation.label a;
                    SequenceAnnotation.manual := SequenceAnnotation.manual a;
                    SequenceAnnotation.user := SequenceAnnotation.user a;
                    SequenceAnnotation.start_offset := SequenceAnnotation.start_offset a;
                    SequenceAnnotation.end_offset := SequenceAnnotation.end_offset a |} in
      ({| DB.users := DB.users db; DB.projects := DB.projects db;
          DB.labels := DB.labels db; DB.documents := DB.documents db;
          DB.doc_annotations := DB.doc_annotations db;
          DB.seq_annotations := DB.seq_annotations db ++ [row];
          DB.seq2seq_annotations := DB.seq2seq_annotations db |}, ASeq row)
  | AS2S a =>
      let row := {| Seq2seqAnnotation.id :=
                      next_id (Seq2seqAnnotation.id <$> DB.seq2seq_annotations db);
                    Seq2seqAnnotation.document := Seq2seqAnnotation.document a;
                    Seq2seqAnnotation.text := Seq2seqAnnotation.text a;
                    Seq2seqAnnotation.manual := Seq2seqAnnotation.manual a;
                    Seq2seqAnnotation.user := Seq2seqAnnotation.user a |} in
      ({| DB.users := DB.users db; DB.projects := DB.projects db;
          DB.labels := DB.labels db; DB.documents := DB.documents db;
          DB.doc_annotations := DB.doc_annotations db;
          DB.seq_annotations := DB.seq_annotations db;
          DB.seq2seq_annotations := DB.seq2seq_annotations db ++ [row] |}, AS2S row)
  end.

(** [annotation.save()] of a Seq2seqAnnotation fetched from the table: the
    row with its key is overwritten. *)
Definition Seq2seqAnnotation_update (db : DB.t) (a : Seq2seqAnnotation.t) : DB.t :=
  {| DB.users := DB.users db; DB.projects := DB.projects db;
     DB.labels := DB.labels db; DB.documents := DB.documents db;
     DB.doc_annotations := DB.doc_annotations db;
     DB.seq_annotations := DB.seq_annotations db;
     DB.seq2seq_annotations :=
       (λ r, if bool_decide (Seq2seqAnnotation.id r = Seq2seqAnnotation.id a)
             then a else r) <$> DB.seq2seq_annotations db |}.

(** ** Field coercions *)

(** A key or an IntegerField given a request value: [int(v)].  For a string
    this reads an optional minus sign and decimal digits; the blanks, the
    plus sign and the underscores that Python's [int] also accepts are
    refused, and the range of the database column is not checked. *)
Definition int_of_value (v : value) : result Z :=
  match v with
  | VInt n => Ok n
  | VStr s =>
      match NilZero.int_of_string s with
      | Some d => Ok (Z.of_int d)
      | None => Raise ValueError
      end
  end.

(** A TextField given a request value: [str(v)]. *)
Definition str_of_value (v : value) : string :=
  match v with
  | VInt n => pretty n
  | VStr s => s
  end.

(** A foreign key to User given [request.user]: AnonymousUser is not a User
    instance and is refused. *)
Definition user_fk (u : request_user) : result Z :=
  match u with
  | AnonymousUser => Raise ValueError
  | AuthUser u => Ok (User.id u)
  end.

(** ** DatasetUpload *)

(** The body of the loop [for line in reader], threading the database. *)
Fixpoint import_lines (reader : csv_file) (project : Project.t) (db : DB.t)
    : DB.t * result unit :=
  match reader with
  | [] => (db, Ok ())
  | Raise e :: _ => (db, Raise e)
  | Ok line :: rest =>
      match line !! 0%nat with
      | None => (db, Raise IndexError)
      | Some text => import_lines rest project (Document_save db text project)
      end
  end.

(** The [try] block of [DatasetUpload.post], up to its [return]. *)
Definition import_csv (db : DB.t) (request : Request.t) (project : Project.t)
    : DB.t * result unit :=
  match getitem (Request.FILES request) "csv_file" with
  | Raise e => (db, Raise e)
  | Ok reader => import_lines reader project db
  end.

(** What a handler leaves behind: the database, the lines printed, and the
    response or the exception that left the handler. *)
Record outcome := {
  out_db : DB.t;
  out_stdout : list string;
  out_result : result response
}.

(** [DatasetUpload.post], the handler that LoginRequiredMixin lets a logged-in
    request reach. *)
Definition DatasetUpload_post (db : DB.t) (request : Request.t) (kw : kwargs)
    : outcome :=
  match get_project db (kw !! "project_id"%string) with
  | Raise e => {| out_db := db; out_stdout := []; out_result := Raise e |}
  | Ok project =>
      match import_csv db request project with
      | (db', Ok _) =>
          {| out_db := db'; out_stdout := [];
             out_result :=
               Ok (HttpResponseRedirect (reverse "dataset" [Project.id project])) |}
      | (db', Raise _) =>
          {| out_db := db'; out_stdout := ["failed"%string];
             out_result :=
               Ok (HttpResponseRedirect
                     (reverse "dataset-upload" [Project.id project])) |}
      end
  end.

(** ** ProjectViewSet *)

(** [needle in haystack] on strings, as SQL's [LIKE '%needle%']. *)
Fixpoint contains (haystack needle : string) : bool :=
  String.prefix needle haystack ||
  match haystack with
  | EmptyString => false
  | String _ rest => contains rest needle
  end.

(** [self.queryset.filter(users__id__contains=user.id)]: the join of the
    projects with their users, one row for each pair whose user key, written
    in decimal, contains the requesting user's key.  A null key is refused
    as a query value. *)
Definition ProjectViewSet_get_queryset (db : DB.t) (request : Request.t)
    : result (list Project.t) :=
  match Request.user request with
  | AnonymousUser => Raise ValueError
  | AuthUser user =>
      Ok (p ← DB.projects db;
          u ← project_users_all db p;
          if contains (pretty (User.id u)) (pretty (User.id user)) then [p] else [])
  end.

(** [GenericAPIView.get_object] on that queryset. *)
Definition ProjectViewSet_get_object (db : DB.t) (request : Request.t) (pk : option Z)
    : result Project.t :=
  queryset ← ProjectViewSet_get_queryset db request;
  get_object_or_404 (filter (λ p, pk_is pk (Project.id p) = true) queryset).

Definition ProjectViewSet_progress (db : DB.t) (request : Request.t) (pk : option Z)
    : result response :=
  project ← ProjectViewSet_get_object db request pk;
  let docs := get_documents db project true in
  let total := Z.of_nat (length (project_documents_all db project)) in
  let remaining := Z.of_nat (length docs) in
  Ok (Response (Data (JObject [("total"%string, JNum total);
                               ("remaining"%string, JNum remaining)]))).

(** ** ProjectLabelsAPI *)

Definition ProjectLabelsAPI_permission_classes : list permission :=
  [IsAuthenticated; IsProjectUser; IsAdminUserAndWriteOnly].

Definition ProjectLabelsAPI_get_queryset (db : DB.t) (kw : kwargs)
    : result (list Label.t) :=
  project_id ← getitem kw "project_id";
  Ok (filter (λ l, Label.project l = project_id) (DB.labels db)).

(** A GET on the view: the permission checks, then [ListModelMixin.list].
    Requests of another method reach other handlers, which are not this
    one. *)
Definition ProjectLabelsAPI_get (db : DB.t) (request : Request.t) (kw : kwargs)
    : result response :=
  _ ← check_permissions ProjectLabelsAPI_permission_classes db request kw;
  queryset ← ProjectLabelsAPI_get_queryset db kw;
  Ok (Response (LabelSerializerData queryset)).

(** ** ProjectStatsAPI *)

(** [Counter(iterable)] and [counter[key]]. *)
Definition Counter (iterable : list string) : gmap string Z :=
  foldl (λ c elem, <[elem := default 0 (c !! elem) + 1]> c) ∅ iterable.

Definition Counter_getitem (c : gmap string Z) (key : string) : Z :=
  default 0 (c !! key).

(** [a.label]: the related row; a Seq2seqAnnotation has no such attribute. *)
Definition annotation_label (db : DB.t) (a : Annotation) : result Label.t :=
  match a with
  | ADoc a =>
      queryset_get (filter (λ l, Label.id l = DocumentAnnotation.label a) (DB.labels db))
  | ASeq a =>
      queryset_get (filter (λ l, Label.id l = SequenceAnnotation.label a) (DB.labels db))
  | AS2S _ => Raise AttributeError
  end.

(** [a.user]: the related row. *)
Definition annotation_user_row (db : DB.t) (a : Annotation) : result User.t :=
  queryset_get (filter (λ u, User.id u = annotation_user a) (DB.users db)).

(** [a.label.text] and [a.user.username], the element expressions of the two
    comprehensions of [ProjectStatsAPI.get]. *)
Definition label_text (db : DB.t) (a : Annotation) : result string :=
  label ← annotation_label db a; Ok (Label.text label).

Definition author_name (db : DB.t) (a : Annotation) : result string :=
  user ← annotation_user_row db a; Ok (User.username user).

Definition ProjectStatsAPI_get (db : DB.t) (kw : kwargs) : result response :=
  project_id ← getitem kw "project_id";
  p ← get_project db (Some project_id);
  let labels := Label.text <$> project_labels_all db p in
  let users := User.username <$> project_users_all db p in
  let docs := project_documents_all db p in
  nested_labels ←
    for_each (λ doc, for_each (label_text db) (get_annotations db p doc)) docs;
  nested_users ←
    for_each (λ doc, for_each (author_name db) (get_annotations db p doc)) docs;
  let label_count := Counter (concat nested_labels) in
  let label_data := Counter_getitem label_count <$> labels in
  let user_count := Counter (concat nested_users) in
  let user_data := Counter_getitem user_count <$> users in
  Ok (Response (Data (JObject
    [("label"%string, JObject [("labels"%string, JArray (JString <$> labels));
                               ("data"%string, JArray (JNum <$> label_data))]);
     ("user"%string, JObject [("users"%string, JArray (JString <$> users));
                              ("data"%string, JArray (JNum <$> user_data))])]))).

(** ** AnnotationsAPI and AnnotationAPI *)

(** [AnnotationsAPI.post] up to [annotation.save()]: the serializer class
    and the instance built, which has no key yet. *)
Definition AnnotationsAPI_post_annotation
    (db : DB.t) (request : Request.t) (kw : kwargs)
    : result (annotation_class * Annotation) :=
  doc_id ← getitem kw "doc_id";
  doc ← get_document db (Some doc_id);
  project_id ← getitem kw "project_id";
  project ← get_project db (Some project_id);
  serializer_class ← get_annotation_serializer project;
  annotation ←
    (if is_type_of project DOCUMENT_CLASSIFICATION then
       label_id ← getitem (Request.data request) "label_id";
       pk ← int_of_value label_id;
       label ← get_label db (Some pk);
       user ← user_fk (Request.user request);
       Ok (ADoc {| DocumentAnnotation.id := 0;
                   DocumentAnnotation.document := Document.id doc;
                   DocumentAnnotation.label := Label.id label;
                   DocumentAnnotation.manual := true;
                   DocumentAnnotation.user := user |})
     else if is_type_of project SEQUENCE_LABELING then
       label_id ← getitem (Request.data request) "label_id";
       pk ← int_of_value label_id;
       label ← get_label db (Some pk);
       start_offset ← getitem (Request.data request) "start_offset";
       end_offset ← getitem (Request.data request) "end_offset";
       user ← user_fk (Request.user request);
       start_offset ← int_of_value start_offset;
       end_offset ← int_of_value end_offset;
       Ok (ASeq {| SequenceAnnotation.id := 0;
                   SequenceAnnotation.document := Document.id doc;
                   SequenceAnnotation.label := Label.id label;
                   SequenceAnnotation.manual := true;
                   SequenceAnnotation.user := user;
                   SequenceAnnotation.start_offset := start_offset;
                   SequenceAnnotation.end_offset := end_offset |})
     else if is_type_of project Seq2seq then
       text ← getitem (Request.data request) "text";
       user ← user_fk (Request.user request);
       Ok (AS2S {| Seq2seqAnnotation.id := 0;
                   Seq2seqAnnotation.document := Document.id doc;
                   Seq2seqAnnotation.text := str_of_value text;
                   Seq2seqAnnotation.manual := true;
                   Seq2seqAnnotation.user := user |})
     else Raise UnboundLocalError);
  Ok (serializer_class, annotation).

Definition AnnotationsAPI_post (db : DB.t) (request : Request.t) (kw : kwargs)
    : DB.t * result response :=
  match AnnotationsAPI_post_annotation db request kw with
  | Raise e => (db, Raise e)
  | Ok (serializer_class, annotation) =>
      let '(db', saved) := Annotation_insert db annotation in
      (db', Ok (Response (AnnotationSerializerData serializer_class saved)))
  end.

Definition AnnotationAPI_permission_classes : list permission :=
  [IsAuthenticated; IsProjectUser; IsOwnAnnotation].

(** [AnnotationAPI.put] up to [annotation.save()]: the serializer class and
    the instance fetched and changed; [annotation] is bound on one branch
    only. *)
Definition AnnotationAPI_put_annotation
    (db : DB.t) (request : Request.t) (kw : kwargs)
    : result (annotation_class * Seq2seqAnnotation.t) :=
  doc_id ← getitem kw "doc_id";
  doc ← get_document db (Some doc_id);
  project_id ← getitem kw "project_id";
  project ← get_project db (Some project_id);
  serializer_class ← get_annotation_serializer project;
  annotation ←
    (if is_type_of project Seq2seq then
       text ← getitem (Request.data request) "text";
       id ← getitem (Request.data request) "id";
       pk ← int_of_value id;
       annotation ← get_object_or_404
         (filter (λ a, Seq2seqAnnotation.id a = pk) (DB.seq2seq_annotations db));
       Ok {| Seq2seqAnnotation.id := Seq2seqAnnotation.id annotation;
             Seq2seqAnnotation.document := Seq2seqAnnotation.document annotation;
             Seq2seqAnnotation.text := str_of_value text;
             Seq2seqAnnotation.manual := Seq2seqAnnotation.manual annotation;
             Seq2seqAnnotation.user := Seq2seqAnnotation.user annotation |}
     else Raise UnboundLocalError);
  Ok (serializer_class, annotation).

Definition AnnotationAPI_put (db : DB.t) (request : Request.t) (kw : kwargs)
    : DB.t * result response :=
  match AnnotationAPI_put_annotation db request kw with
  | Raise e => (db, Raise e)
  | Ok (serializer_class, annotation) =>
      (Seq2seqAnnotation_update db annotation,
       Ok (Response (AnnotationSerializerData serializer_class (AS2S annotation))))
  end.

(** A PUT on the view: the permission checks, then the handler. *)
Definition AnnotationAPI_dispatch_put (db : DB.t) (request : Request.t) (kw : kwargs)
    : DB.t * result response :=
  match check_permissions AnnotationAPI_permission_classes db request kw with
  | Raise e => (db, Raise e)
  | Ok _ => AnnotationAPI_put db request kw
  end.

(** ** The other views *)

(** The [permission_classes] of the remaining API views. *)
Definition ProjectViewSet_permission_classes : list permission :=
  [IsAuthenticated; IsAdminUserAndWriteOnly].

Definition ProjectStatsAPI_permission_classes : list permission :=
  [IsAuthenticated; IsProjectUser; IsAdminUserAndWriteOnly].

Definition ProjectLabelAPI_permission_classes : list permission :=
  [IsAuthenticated; IsProjectUser; IsAdminUser].

Definition ProjectDocsAPI_permission_classes : list permission :=
  [IsAuthenticated; IsProjectUser; IsAdminUserAndWriteOnly].

Definition AnnotationsAPI_permission_classes : list permission :=
  [IsAuthenticated; IsProjectUser].

(** [DatasetView.get_queryset] *)
Definition DatasetView_get_queryset (db : DB.t) (kw : kwargs)
    : result (list Document.t) :=
  project_id ← getitem kw "project_id";
  project ← get_project db (Some project_id);
  Ok (project_documents_all db project).

(** [ProjectLabelAPI.get_queryset] and [ProjectLabelAPI.get_object]; the
    permission classes of the view have no object-level check. *)
Definition ProjectLabelAPI_get_queryset (db : DB.t) (kw : kwargs)
    : result (list Label.t) :=
  project_id ← getitem kw "project_id";
  Ok (filter (λ l, Label.project l = project_id) (DB.labels db)).

Definition ProjectLabelAPI_get_object (db : DB.t) (kw : kwargs) : result Label.t :=
  label_id ← getitem kw "label_id";
  queryset ← ProjectLabelAPI_get_queryset db kw;
  get_object_or_404 (filter (λ l, Label.id l = label_id) queryset).

#[global] Instance Document_eq_dec : EqDecision Document.t.
Proof. solve_decision. Defined.

(** A query parameter is truthy when it is present and not empty. *)
Definition truthy (v : option string) : bool :=
  match v with
  | Some s => negb (bool_decide (s = ""%string))
  | None => false
  end.

(** [ProjectDocsAPI.get_queryset]; [query_params] is
    [self.request.query_params], [remove_dups] is [.distinct()]. *)
Definition ProjectDocsAPI_get_queryset
    (db : DB.t) (query_params : gmap string string) (kw : kwargs)
    : result (list Document.t) :=
  project_id ← getitem kw "project_id";
  let queryset := filter (λ d, Document.project d = project_id) (DB.documents db) in
  if negb (truthy (query_params !! "is_checked"%string)) then Ok queryset
  else
    project ← get_project db (Some project_id);
    let is_null := bool_decide (query_params !! "is_checked"%string = Some "true"%string) in
    Ok (remove_dups (get_documents db project is_null)).

(** [AnnotationsAPI.get_queryset]: the document is looked up inside the
    project, so its project is the one just fetched. *)
Definition AnnotationsAPI_get_queryset (db : DB.t) (kw : kwargs)
    : result (list Annotation) :=
  project_id ← getitem kw "project_id";
  project ← get_project db (Some project_id);
  doc_id ← getitem kw "doc_id";
  document ← get_object_or_404
    (filter (λ d, Document.id d = doc_id ∧ Document.project d = Project.id project)
            (DB.documents db));
  Ok (get_annotations db project document).

(** A POST on [AnnotationsAPI]: the permission checks, then the handler. *)
Definition AnnotationsAPI_dispatch_post (db : DB.t) (request : Request.t) (kw : kwargs)
    : DB.t * result response :=
  match check_permissions AnnotationsAPI_permission_classes db request kw with
  | Raise e => (db, Raise e)
  | Ok _ => AnnotationsAPI_post db request kw
  end.

(** [document.project]: the related row. *)
Definition document_project (db : DB.t) (doc : Document.t) : result Project.t :=
  queryset_get (filter (λ p, Project.id p = Document.project doc) (DB.projects db)).

(** [AnnotationAPI.get_queryset] and [AnnotationAPI.get_object]; the
    permission classes of the view have no object-level check. *)
Definition AnnotationAPI_get_queryset (db : DB.t) (kw : kwargs)
    : result (list Annotation) :=
  doc_id ← getitem kw "doc_id";
  document ← get_document db (Some doc_id);
  project ← document_project db document;
  Ok (get_annotations db project document).

Definition AnnotationAPI_get_object (db : DB.t) (kw : kwargs) : result Annotation :=
  annotation_id' ← getitem kw "annotation_id";
  queryset ← AnnotationAPI_get_queryset db kw;
  get_object_or_404 (filter (λ a, annotation_id a = annotation_id') queryset).

(** ** Sample data *)

Definition alice : User.t := {| User.id := 1; User.username := "alice"; User.is_staff := true |}.
Definition bob : User.t := {| User.id := 2; User.username := "bob"; User.is_staff := false |}.
Definition carol : User.t := {| User.id := 3; User.username := "carol"; User.is_staff := false |}.

Definition news : Project.t :=
  {| Project.id := 1; Project.name := "news"; Project.description := "sentiment";
     Project.project_type := DOCUMENT_CLASSIFICATION; Project.users := [1; 2] |}.
Definition ner : Project.t :=
  {| Project.id := 2; Project.name := "ner"; Project.description := "entities";
     Project.project_type := SEQUENCE_LABELING; Project.users := [1] |}.
Definition mt : Project.t :=
  {| Project.id := 3; Project.name := "mt"; Project.description := "translation";
     Project.project_type := Seq2seq; Project.users := [2] |}.

Definition sample_db : DB.t :=
  {| DB.users := [alice; bob; carol];
     DB.projects := [news; ner; mt];
     DB.labels :=
       [ {| Label.id := 1; Label.text := "pos"; Label.project := 1 |};
         {| Label.id := 2; Label.text := "neg"; Label.project := 1 |};
         {| Label.id := 3; Label.text := "PER"; Label.project := 2 |} ];
     DB.documents :=
       [ {| Document.id := 1; Document.text := "good"; Document.project := 1 |};
         {| Document.id := 2; Document.text := "bad"; Document.project := 1 |};
         {| Document.id := 3; Document.text := "John"; Document.project := 2 |};
         {| Document.id := 4; Document.text := "hello"; Document.project := 3 |} ];
     DB.doc_annotations :=
       [ {| DocumentAnnotation.id := 1; DocumentAnnotation.document := 1;
            DocumentAnnotation.label := 1; DocumentAnnotation.manual := true;
            DocumentAnnotation.user := 1 |};
         {| DocumentAnnotation.id := 2; DocumentAnnotation.document := 1;
            DocumentAnnotation.label := 1; DocumentAnnotation.manual := true;
            DocumentAnnotation.user := 2 |} ];
     DB.seq_annotations :=
       [ {| SequenceAnnotation.id := 1; SequenceAnnotation.document := 3;
            SequenceAnnotation.label := 3; SequenceAnnotation.manual := true;
            SequenceAnnotation.user := 1;
            SequenceAnnotation.start_offset := 0; SequenceAnnotation.end_offset := 4 |} ];
     DB.seq2seq_annotations :=
       [ {| Seq2seqAnnotation.id := 1; Seq2seqAnnotation.document := 4;
            Seq2seqAnnotation.text := "bonjour"; Seq2seqAnnotation.manual := true;
            Seq2seqAnnotation.user := 2 |} ] |}.

Definition sample_request (method : string) (user : request_user)
    (data : list (string * value)) : Request.t :=
  {| Request.method := method; Request.user := user;
     Request.data := list_to_map data; Request.FILES := ∅ |}.

Definition upload_request (user : request_user) (file : csv_file) : Request.t :=
  {| Request.method := "POST"; Request.user := user;
     Request.data := ∅; Request.FILES := {[ "csv_file"%string := file ]} |}.

Definition sample_kwargs (kw : list (string * Z)) : kwargs := list_to_map kw.

(** ** Specification-side notions *)

(** The requesting user is a member of the project named in the request. *)
Definition is_project_member (db : DB.t) (request : Request.t) (kw : kwargs) : Prop :=
  ∃ project u,
    get_project db (kw !! "project_id"%string) = Ok project ∧
    Request.user request = AuthUser u ∧
    User.id u ∈ Project.users project ∧
    User.id u ∈ User.id <$> DB.users db.

(** The requesting user is an admin. *)
Definition is_admin (request : Request.t) : Prop :=
  ∃ u, Request.user request = AuthUser u ∧ User.is_staff u = true.

(** The annotation's authoring user is the requesting user. *)
Definition authored_by (a : Annotation) (user : request_user) : Prop :=
  ∃ u, user = AuthUser u ∧ annotation_user a = User.id u.

(** A step of the reader on which the loop stops: the reader raises, or the
    row has no column 0. *)
Definition row_fails (item : result (list string)) : bool :=
  match item with
  | Ok [] => true
  | Ok (_ :: _) => false
  | Raise _ => true
  end.

(** The upload is one on which the import cannot finish: there is no
    [csv_file] in the request, or some step of the reader fails. *)
Definition import_fails (request : Request.t) : bool :=
  match Request.FILES request !! "csv_file"%string with
  | None => true
  | Some reader => existsb row_fails reader
  end.

(** [db'] differs from [db] by the documents [created], appended. *)
Definition documents_added (db db' : DB.t) (created : list Document.t) : Prop :=
  DB.documents db' = DB.documents db ++ created ∧
  DB.users db' = DB.users db ∧
  DB.projects db' = DB.projects db ∧
  DB.labels db' = DB.labels db ∧
  DB.doc_annotations db' = DB.doc_annotations db ∧
  DB.seq_annotations db' = DB.seq_annotations db ∧
  DB.seq2seq_annotations db' = DB.seq2seq_annotations db.

(** The documents [created] are, in order, one for each of [rows], with the
    row's column 0 as text, in [project]. *)
Definition documents_of_rows (project : Project.t) (rows : list (list string))
    (created : list Document.t) : Prop :=
  (λ d, Some (Document.text d)) <$> created = (λ row, row !! 0%nat) <$> rows ∧
  Forall (λ d, Document.project d = Project.id project) created.

(** The annotation rows that can belong to documents of project [p]. *)
Definition annotation_rows (db : DB.t) (p : Project.t) : list Annotation :=
  match get_annotation_class p with
  | Ok cls => objects_all db cls
  | Raise _ => []
  end.

(** No annotation row refers to document [d]. *)
Definition unannotated (db : DB.t) (p : Project.t) (d : Document.t) : Prop :=
  Forall (λ a, annotation_document a ≠ Document.id d) (annotation_rows db p).



(** A database in which alice (key 1) shares a project with a user whose
    key is 11. *)
Definition dave : User.t := {| User.id := 11; User.username := "dave"; User.is_staff := false |}.

Definition crowded_db : DB.t :=
  {| DB.users := [alice; dave];
     DB.projects :=
       [ {| Project.id := 1; Project.name := "news"; Project.description := "";
            Project.project_type := DOCUMENT_CLASSIFICATION; Project.users := [1; 11] |} ];
     DB.labels := []; DB.documents := [];
     DB.doc_annotations := []; DB.seq_annotations := []; DB.seq2seq_annotations := [] |}.

(** The annotations across all of the project's documents. *)
Definition project_annotations (db : DB.t) (p : Project.t) : list Annotation :=
  doc ← project_documents_all db p; get_annotations db p doc.

(** The number of the project's annotations whose label text is [name], and
    the number of those whose author's username is [name]. *)
Definition count_label (db : DB.t) (p : Project.t) (name : string) : Z :=
  Z.of_nat (length (filter (λ a, label_text db a = Ok name) (project_annotations db p))).

Definition count_author (db : DB.t) (p : Project.t) (name : string) : Z :=
  Z.of_nat (length (filter (λ a, author_name db a = Ok name) (project_annotations db p))).

(** The shape {label: {labels, data}, user: {users, data}}. *)
Definition stats_json (labels : list string) (label_data : list Z)
    (users : list string) (user_data : list Z) : json :=
  JObject
    [("label"%string, JObject [("labels"%string, JArray (JString <$> labels));
                               ("data"%string, JArray (JNum <$> label_data))]);
     ("user"%string, JObject [("users"%string, JArray (JString <$> users));
                              ("data"%string, JArray (JNum <$> user_data))])].

(** [db'] differs from [db] by the row of annotation [a], appended to the
    table of its class. *)
Definition annotation_added (db db' : DB.t) (a : Annotation) : Prop :=
  DB.users db' = DB.users db ∧
  DB.projects db' = DB.projects db ∧
  DB.labels db' = DB.labels db ∧
  DB.documents db' = DB.documents db ∧
  match a with
  | ADoc row =>
      DB.doc_annotations db' = DB.doc_annotations db ++ [row] ∧
      DB.seq_annotations db' = DB.seq_annotations db ∧
      DB.seq2seq_annotations db' = DB.seq2seq_annotations db
  | ASeq row =>
      DB.doc_annotations db' = DB.doc_annotations db ∧
      DB.seq_annotations db' = DB.seq_annotations db ++ [row] ∧
      DB.seq2seq_annotations db' = DB.seq2seq_annotations db
  | AS2S row =>
      DB.doc_annotations db' = DB.doc_annotations db ∧
      DB.seq_annotations db' = DB.seq_annotations db ∧
      DB.seq2seq_annotations db' = DB.seq2seq_annotations db ++ [row]
  end.

(** Annotation [a] has the subtype that the project type [ty] determines,
    with the fields that the subtype takes from the request. *)
Definition subtype_for (ty : project_type) (request : Request.t) (a : Annotation) : Prop :=
  match ty with
  | DOCUMENT_CLASSIFICATION => ∃ row, a = ADoc row
  | SEQUENCE_LABELING =>
      ∃ row start_offset end_offset,
        a = ASeq row ∧
        Request.data request !! "start_offset"%string = Some start_offset ∧
        Request.data request !! "end_offset"%string = Some end_offset ∧
        int_of_value start_offset = Ok (SequenceAnnotation.start_offset row) ∧
        int_of_value end_offset = Ok (SequenceAnnotation.end_offset row)
  | Seq2seq =>
      ∃ row text,
        a = AS2S row ∧
        Request.data request !! "text"%string = Some text ∧
        Seq2seqAnnotation.text row = str_of_value text
  | OtherType _ => False
  end.

(** The project's annotations carry a label. *)
Definition label_bearing (p : Project.t) : Prop :=
  Project.project_type p = DOCUMENT_CLASSIFICATION ∨
  Project.project_type p = SEQUENCE_LABELING.

(** Keys of labels and users are unique, and the label and the author of
    every label-bearing annotation row exist. *)
Definition keys_resolve (db : DB.t) : Prop :=
  NoDup (Label.id <$> DB.labels db) ∧
  NoDup (User.id <$> DB.users db) ∧
  Forall (λ a, DocumentAnnotation.label a ∈ Label.id <$> DB.labels db ∧
               DocumentAnnotation.user a ∈ User.id <$> DB.users db)
         (DB.doc_annotations db) ∧
  Forall (λ a, SequenceAnnotation.label a ∈ Label.id <$> DB.labels db ∧
               SequenceAnnotation.user a ∈ User.id <$> DB.users db)
         (DB.seq_annotations db).

(** The rows that the reader yields before its first failing step. *)
Fixpoint rows_before_failure (reader : csv_file) : list (list string) :=
  match reader with
  | Ok (cell :: cells) :: rest => (cell :: cells) :: rows_before_failure rest
  | _ => []
  end.

(** The reader of the upload, empty when the request carries no file. *)
Definition uploaded_reader (request : Request.t) : csv_file :=
  default [] (Request.FILES request !! "csv_file"%string).

(** The instance that a POST builds for document [doc] of the URL in
    project [project] from the request: its subtype, and where each field
    comes from. *)
Definition post_instance (db : DB.t) (request : Request.t)
    (project : Project.t) (doc : Document.t) (a : Annotation) : Prop :=
  ∃ u, Request.user request = AuthUser u ∧
  match Project.project_type project with
  | DOCUMENT_CLASSIFICATION =>
      ∃ label_id pk label,
        Request.data request !! "label_id"%string = Some label_id ∧
        int_of_value label_id = Ok pk ∧
        get_label db (Some pk) = Ok label ∧
        a = ADoc {| DocumentAnnotation.id := 0;
                    DocumentAnnotation.document := Document.id doc;
                    DocumentAnnotation.label := Label.id label;
                    DocumentAnnotation.manual := true;
                    DocumentAnnotation.user := User.id u |}
  | SEQUENCE_LABELING =>
      ∃ label_id pk label start_offset end_offset s e,
        Request.data request !! "label_id"%string = Some label_id ∧
        int_of_value label_id = Ok pk ∧
        get_label db (Some pk) = Ok label ∧
        Request.data request !! "start_offset"%string = Some start_offset ∧
        Request.data request !! "end_offset"%string = Some end_offset ∧
        int_of_value start_offset = Ok s ∧
        int_of_value end_offset = Ok e ∧
        a = ASeq {| SequenceAnnotation.id := 0;
                    SequenceAnnotation.document := Document.id doc;
                    SequenceAnnotation.label := Label.id label;
                    SequenceAnnotation.manual := true;
                    SequenceAnnotation.user := User.id u;
                    SequenceAnnotation.start_offset := s;
                    SequenceAnnotation.end_offset := e |}
  | Seq2seq =>
      ∃ text,
        Request.data request !! "text"%string = Some text ∧
        a = AS2S {| Seq2seqAnnotation.id := 0;
                    Seq2seqAnnotation.document := Document.id doc;
                    Seq2seqAnnotation.text := str_of_value text;
                    Seq2seqAnnotation.manual := true;
                    Seq2seqAnnotation.user := User.id u |}
  | OtherType _ => False
  end.

(** The label row that a label-bearing annotation refers to is in the
    table; a Seq2seqAnnotation refers to none. *)
Definition label_row_exists (db : DB.t) (a : Annotation) : Prop :=
  match a with
  | ADoc r => ∃ label, label ∈ DB.labels db ∧ DocumentAnnotation.label r = Label.id label
  | ASeq r => ∃ label, label ∈ DB.labels db ∧ SequenceAnnotation.label r = Label.id label
  | AS2S _ => True
  end.

(** * Permission classes *)

Lemma user_in_spec (user : request_user) (rows : list User.t) :
  user_in user rows = true ↔
  ∃ u, user = AuthUser u ∧ User.id u ∈ User.id <$> rows.
Proof.
  unfold user_in. induction rows as [|r rows IH]; simpl.
  - split; [done|]. intros (u & _ & Hin). by apply elem_of_nil in Hin.
  - rewrite orb_true_iff, IH. split.
    + intros [Hr | (u & -> & Hin)].
      * destruct user as [|u]; simpl in Hr; [done|].
        apply bool_decide_eq_true in Hr. exists u. split; [done|].
        rewrite Hr. apply list_elem_of_here.
      * exists u. split; [done|]. by apply list_elem_of_further.
    + intros (u & -> & Hin). apply elem_of_cons in Hin as [Heq | Hin].
      * left. simpl. apply bool_decide_eq_true. congruence.
      * right. eauto.
Qed.

Lemma project_users_all_ids (db : DB.t) (p : Project.t) (k : Z) :
  k ∈ User.id <$> project_users_all db p ↔
  k ∈ Project.users p ∧ k ∈ User.id <$> DB.users db.
Proof.
  unfold project_users_all. rewrite !list_elem_of_fmap. split.
  - intros (r & -> & Hr). apply list_elem_of_filter in Hr as [Hm Hr]. eauto.
  - intros (Hm & r & -> & Hr). exists r. split; [done|].
    by apply list_elem_of_filter.
Qed.

Lemma check_permissions_ok (perms : list permission) db request kw :
  check_permissions perms db request kw = Ok () →
  ∀ perm, perm ∈ perms → has_permission perm db request kw = Ok true.
Proof.
  induction perms as [|q perms IH]; simpl; intros Hok perm Hin.
  - by apply elem_of_nil in Hin.
  - destruct (has_permission q db request kw) as [[|]|e] eqn:Hq; simpl in Hok.
    + apply elem_of_cons in Hin as [-> | Hin]; [done | by apply IH].
    + unfold permission_denied in Hok. by destruct (Request.user request).
    + done.
Qed.

(** C6: IsProjectUser grants access exactly when the requesting user is a
    member of the project named in the request; a user who is not a member
    gets no response from a read of the project's labels: the request ends
    in NotAuthenticated or PermissionDenied, or in the exception of the
    project lookup (Http404, MultipleObjectsReturned). *)
Theorem IsProjectUser_grants_iff_member (db : DB.t) (request : Request.t) (kw : kwargs) :
  (IsProjectUser_has_permission db request kw = Ok true ↔
   is_project_member db request kw) ∧
  (¬ is_project_member db request kw →
   Request.method request = "GET"%string →
   ∃ e, ProjectLabelsAPI_get db request kw = Raise e ∧
        e ∈ [NotAuthenticated; PermissionDenied; Http404; MultipleObjectsReturned]).
Proof.
  assert (Hiff : IsProjectUser_has_permission db request kw = Ok true ↔
                 is_project_member db request kw).
  { unfold IsProjectUser_has_permission, is_project_member.
    destruct (get_project db (kw !! "project_id"%string)) as [project|e]; simpl.
    - split.
      + intros [= Hin]. apply user_in_spec in Hin as (u & Hu & Hin).
        apply project_users_all_ids in Hin as [Hm Hrow]. by exists project, u.
      + intros (project' & u & [= <-] & Hu & Hm & Hrow). f_equal.
        apply user_in_spec. exists u. split; [done|].
        by apply project_users_all_ids.
    - split; [done|]. by intros (? & ? & ? & _). }
  split; [exact Hiff|].
  intros Hnot _.
  assert (Hno : IsProjectUser_has_permission db request kw ≠ Ok true)
    by (intros H; apply Hnot, Hiff, H).
  clear Hiff Hnot.
  unfold ProjectLabelsAPI_get, ProjectLabelsAPI_permission_classes.
  simpl. destruct (Request.user request) as [|u] eqn:Hu; simpl.
  - unfold IsAuthenticated_has_permission, permission_denied. rewrite Hu. simpl.
    exists NotAuthenticated. split; [done|]. set_solver.
  - unfold IsAuthenticated_has_permission. rewrite Hu. simpl.
    destruct (IsProjectUser_has_permission db request kw) as [[|]|e] eqn:Hp; simpl.
    + done.
    + unfold permission_denied. rewrite Hu. exists PermissionDenied.
      split; [done|]. set_solver.
    + exists e. split; [done|].
      unfold IsProjectUser_has_permission, get_project, get_object_or_404,
        queryset_get in Hp.
      destruct (filter _ (DB.projects db)) as [|? [|? ?]]; simpl in Hp;
        inversion Hp; set_solver.
Qed.

Example labels_read_by_member :
  ProjectLabelsAPI_get sample_db (sample_request "GET" (AuthUser bob) [])
                       (sample_kwargs [("project_id"%string, 1)])
  = Ok (Response (LabelSerializerData
          [ {| Label.id := 1; Label.text := "pos"; Label.project := 1 |};
            {| Label.id := 2; Label.text := "neg"; Label.project := 1 |} ])).
Proof. vm_compute. reflexivity. Qed.

Example labels_read_by_non_member :
  ProjectLabelsAPI_get sample_db (sample_request "GET" (AuthUser carol) [])
                       (sample_kwargs [("project_id"%string, 1)])
  = Raise PermissionDenied.
Proof. vm_compute. reflexivity. Qed.

(** C7: IsAdminUserAndWriteOnly grants access exactly when the method is a
    safe one or the requesting user is an admin; a request with a safe
    method passes whoever the user is. *)
Theorem IsAdminUserAndWriteOnly_grants_iff (request : Request.t) :
  (IsAdminUserAndWriteOnly_has_permission request = true ↔
   Request.method request ∈ SAFE_METHODS ∨ is_admin request) ∧
  (Request.method request ∈ SAFE_METHODS →
   IsAdminUserAndWriteOnly_has_permission request = true).
Proof.
  unfold IsAdminUserAndWriteOnly_has_permission, IsAdminUser_has_permission, is_admin.
  case_bool_decide as Hsafe.
  - split; [|done]. split; [by left | done].
  - split; [|done]. split.
    + destruct (Request.user request) as [|u]; [done|]. intros Hstaff. right. eauto.
    + intros [Hs | (u & -> & Hstaff)]; done.
Qed.

Example write_by_admin :
  IsAdminUserAndWriteOnly_has_permission (sample_request "POST" (AuthUser alice) []) = true.
Proof. reflexivity. Qed.

Example write_by_other :
  IsAdminUserAndWriteOnly_has_permission (sample_request "POST" (AuthUser bob) []) = false.
Proof. reflexivity. Qed.

Example read_by_anonymous :
  IsAdminUserAndWriteOnly_has_permission (sample_request "GET" AnonymousUser []) = true.
Proof. reflexivity. Qed.

(** C8: when the request names a project and an annotation that exists in
    the project's annotation class, IsOwnAnnotation answers, and it grants
    access exactly when the annotation's author is the requesting user. *)
Theorem IsOwnAnnotation_grants_iff_author
    (db : DB.t) (request : Request.t) (kw : kwargs)
    (project : Project.t) (cls : annotation_class) (annotation : Annotation) :
  get_project db (kw !! "project_id"%string) = Ok project →
  get_annotation_class project = Ok cls →
  queryset_get (filter (λ a, pk_is (kw !! "annotation_id"%string) (annotation_id a) = true)
                       (objects_all db cls)) = Ok annotation →
  ∃ granted,
    IsOwnAnnotation_has_permission db request kw = Ok granted ∧
    (granted = true ↔ authored_by annotation (Request.user request)).
Proof.
  intros Hp Hcls Ha. unfold IsOwnAnnotation_has_permission.
  rewrite Hp. simpl. rewrite Hcls. simpl. rewrite Ha. simpl.
  eexists. split; [reflexivity|].
  unfold authored_by, user_eq. destruct (Request.user request) as [|u].
  - split; [done|]. by intros (u & ? & _).
  - rewrite bool_decide_eq_true. split.
    + intros Heq. by exists u.
    + by intros (u' & [= <-] & Heq).
Qed.

Lemma IsOwnAnnotation_grants_iff_author_witness :
  ∃ granted,
    IsOwnAnnotation_has_permission sample_db (sample_request "PUT" (AuthUser bob) [])
      (sample_kwargs [("project_id"%string, 3); ("annotation_id"%string, 1)]) = Ok granted ∧
    (granted = true ↔
     authored_by
       (AS2S {| Seq2seqAnnotation.id := 1; Seq2seqAnnotation.document := 4;
                Seq2seqAnnotation.text := "bonjour"; Seq2seqAnnotation.manual := true;
                Seq2seqAnnotation.user := 2 |})
       (AuthUser bob)).
Proof.
  apply (IsOwnAnnotation_grants_iff_author sample_db
           (sample_request "PUT" (AuthUser bob) [])
           (sample_kwargs [("project_id"%string, 3); ("annotation_id"%string, 1)])
           mt Seq2seqAnnotationCls);
    vm_compute; reflexivity.
Defined.

Example own_annotation_of_other :
  IsOwnAnnotation_has_permission sample_db (sample_request "PUT" (AuthUser alice) [])
    (sample_kwargs [("project_id"%string, 3); ("annotation_id"%string, 1)]) = Ok false.
Proof. vm_compute. reflexivity. Qed.

(** * CSV bulk import *)

Lemma documents_added_refl (db : DB.t) : documents_added db db [].
Proof. unfold documents_added. by rewrite app_nil_r. Qed.

Lemma documents_added_save (db db' : DB.t) created text project :
  documents_added (Document_save db text project) db' created →
  ∃ d, Document.text d = text ∧ Document.project d = Project.id project ∧
       documents_added db db' (d :: created).
Proof.
  unfold documents_added, Document_save. simpl.
  intros (Hd & Hu & Hp & Hl & H1 & H2 & H3).
  eexists. split; [|split]; [| |rewrite Hd, <-app_assoc; simpl; eauto 10];
    reflexivity.
Qed.

(** The loop over a run of rows that all have a column 0 saves one document
    for each and goes on with what follows. *)
Lemma import_lines_rows (rows : list (list string)) (rest : csv_file)
    (project : Project.t) (db : DB.t) :
  Forall (λ row, row ≠ []) rows →
  ∃ created db',
    import_lines ((Ok <$> rows) ++ rest) project db = import_lines rest project db' ∧
    documents_added db db' created ∧
    documents_of_rows project rows created.
Proof.
  revert db. induction rows as [|row rows IH]; intros db Hrows.
  - exists [], db. split; [done|]. split; [apply documents_added_refl|].
    by split.
  - apply Forall_cons in Hrows as [Hrow Hrows].
    destruct row as [|text cells]; [done|]. simpl.
    destruct (IH (Document_save db text project) Hrows)
      as (created & db' & Hrun & Hadd & Htexts & Hproj).
    apply documents_added_save in Hadd as (d & Ht & Hp & Hadd).
    exists (d :: created), db'. split; [done|]. split; [done|].
    split.
    + rewrite !fmap_cons, Ht, Htexts. done.
    + by apply Forall_cons.
Qed.

Lemma import_lines_outcome (reader : csv_file) (project : Project.t) (db : DB.t) :
  match (import_lines reader project db).2 with
  | Ok _ => existsb row_fails reader = false
  | Raise _ => existsb row_fails reader = true
  end.
Proof.
  revert db. induction reader as [|[[|text cells]|e] reader IH]; intros db; simpl; try done.
  apply IH.
Qed.

Lemma import_csv_outcome (db : DB.t) (request : Request.t) (project : Project.t) :
  match (import_csv db request project).2 with
  | Ok _ => import_fails request = false
  | Raise _ => import_fails request = true
  end.
Proof.
  unfold import_csv, import_fails, getitem.
  destruct (Request.FILES request !! "csv_file"%string) as [reader|]; simpl; [|done].
  apply import_lines_outcome.
Qed.

(** C1 (as amended): for an upload of N rows that all have a column 0, into
    an existing project, the import adds exactly N documents to the project,
    one for each row in order, with the row's column 0 as text, and changes
    nothing else. *)
Theorem csv_import_creates_one_document_per_row
    (db : DB.t) (request : Request.t) (kw : kwargs)
    (project : Project.t) (rows : list (list string)) :
  get_project db (kw !! "project_id"%string) = Ok project →
  Request.FILES request !! "csv_file"%string = Some (Ok <$> rows) →
  Forall (λ row, row ≠ []) rows →
  ∃ created,
    documents_added db (out_db (DatasetUpload_post db request kw)) created ∧
    length created = length rows ∧
    documents_of_rows project rows created.
Proof.
  intros Hp Hfile Hrows. unfold DatasetUpload_post, import_csv, getitem.
  rewrite Hp, Hfile.
  destruct (import_lines_rows rows [] project db Hrows)
    as (created & db' & Hrun & Hadd & Hdocs).
  rewrite app_nil_r in Hrun. rewrite Hrun. simpl.
  exists created. split; [done|]. split; [|done].
  destruct Hdocs as [Htexts _].
  apply (f_equal length) in Htexts. by rewrite !length_fmap in Htexts.
Qed.

Lemma csv_import_creates_one_document_per_row_witness :
  ∃ created,
    documents_added sample_db
      (out_db (DatasetUpload_post sample_db
                 (upload_request (AuthUser alice) [Ok ["fine"; "x"]; Ok ["so so"]])
                 (sample_kwargs [("project_id", 1)]))) created ∧
    length created = 2%nat ∧
    documents_of_rows news [["fine"; "x"]; ["so so"]]%string created.
Proof.
  apply (csv_import_creates_one_document_per_row sample_db
           (upload_request (AuthUser alice) [Ok ["fine"; "x"]; Ok ["so so"]])
           (sample_kwargs [("project_id", 1)]) news
           [["fine"; "x"]; ["so so"]]%string).
  - vm_compute. reflexivity.
  - vm_compute. reflexivity.
  - repeat constructor; discriminate.
Defined.

(** C1, as first stated, fails: an upload of three rows whose second row is
    blank leaves one new document, not three. *)
Lemma csv_import_blank_row_counterexample :
  DB.documents
    (out_db (DatasetUpload_post sample_db
               (upload_request (AuthUser alice) [Ok ["fine"]; Ok []; Ok ["so so"]])
               (sample_kwargs [("project_id", 1)])))
  = DB.documents sample_db ++
    [ {| Document.id := 5; Document.text := "fine"; Document.project := 1 |} ] ∧
  length (DB.documents
    (out_db (DatasetUpload_post sample_db
               (upload_request (AuthUser alice) [Ok ["fine"]; Ok []; Ok ["so so"]])
               (sample_kwargs [("project_id", 1)]))))
  ≠ (length (DB.documents sample_db) + 3)%nat.
Proof. split; vm_compute; [reflexivity | discriminate]. Qed.

(** C5: for a request that names an existing project, whenever the import
    fails (no file in the request, a reader error, a row without column 0)
    the handler prints its note, lets no exception out and answers with a
    redirect to the upload form; whenever the import succeeds it answers
    with a redirect to the project's dataset page. *)
Theorem csv_import_redirects
    (db : DB.t) (request : Request.t) (kw : kwargs) (project : Project.t) :
  get_project db (kw !! "project_id"%string) = Ok project →
  let out := DatasetUpload_post db request kw in
  ((∃ e, (import_csv db request project).2 = Raise e) ↔ import_fails request = true) ∧
  (import_fails request = true →
   out_result out =
     Ok (HttpResponseRedirect (reverse "dataset-upload" [Project.id project])) ∧
   out_stdout out = ["failed"%string]) ∧
  (import_fails request = false →
   out_result out =
     Ok (HttpResponseRedirect (reverse "dataset" [Project.id project])) ∧
   out_stdout out = []).
Proof.
  intros Hp out. subst out. unfold DatasetUpload_post. rewrite Hp.
  pose proof (import_csv_outcome db request project) as Hout.
  destruct (import_csv db request project) as [db' [[]|e]]; simpl in *.
  - rewrite Hout. split; [|split]; [|done..].
    split; [by intros [? ?] | done].
  - rewrite Hout. split; [|split]; [|done..].
    split; [done | by exists e].
Qed.

Lemma csv_import_redirects_witness :
  let out := DatasetUpload_post sample_db
               (upload_request (AuthUser alice) [Ok ["fine"]; Raise UnicodeDecodeError])
               (sample_kwargs [("project_id", 2)]) in
  ((∃ e, (import_csv sample_db
            (upload_request (AuthUser alice) [Ok ["fine"]; Raise UnicodeDecodeError])
            ner).2 = Raise e) ↔
   import_fails
     (upload_request (AuthUser alice) [Ok ["fine"]; Raise UnicodeDecodeError]) = true) ∧
  (import_fails
     (upload_request (AuthUser alice) [Ok ["fine"]; Raise UnicodeDecodeError]) = true →
   out_result out =
     Ok (HttpResponseRedirect (reverse "dataset-upload" [Project.id ner])) ∧
   out_stdout out = ["failed"%string]) ∧
  (import_fails
     (upload_request (AuthUser alice) [Ok ["fine"]; Raise UnicodeDecodeError]) = false →
   out_result out =
     Ok (HttpResponseRedirect (reverse "dataset" [Project.id ner])) ∧
   out_stdout out = []).
Proof.
  apply (csv_import_redirects sample_db
           (upload_request (AuthUser alice) [Ok ["fine"]; Raise UnicodeDecodeError])
           (sample_kwargs [("project_id", 2)]) ner).
  vm_compute. reflexivity.
Defined.

Example upload_without_file :
  out_result (DatasetUpload_post sample_db (sample_request "POST" (AuthUser alice) [])
                (sample_kwargs [("project_id", 2)]))
  = Ok (HttpResponseRedirect (reverse "dataset-upload" [2])).
Proof. vm_compute. reflexivity. Qed.

Example upload_succeeds :
  out_result (DatasetUpload_post sample_db
                (upload_request (AuthUser alice) [Ok ["fine"]; Ok ["so so"]])
                (sample_kwargs [("project_id", 2)]))
  = Ok (HttpResponseRedirect (reverse "dataset" [2])).
Proof. vm_compute. reflexivity. Qed.

(** The project is looked up before the [try]: without it the handler lets
    Http404 out. *)
Example upload_to_missing_project :
  out_result (DatasetUpload_post sample_db
                (upload_request (AuthUser alice) [Ok ["fine"]])
                (sample_kwargs [("project_id", 9)]))
  = Raise Http404.
Proof. vm_compute. reflexivity. Qed.

(** C10: the import is not atomic.  When the first k rows of the upload have
    a column 0 and the next step of the reader fails (a blank row, or an
    error of the reader), the k documents of those rows, and nothing else,
    have been added when the handler returns, and the handler answers with a
    redirect to the upload form. *)
Theorem csv_import_not_atomic
    (db : DB.t) (request : Request.t) (kw : kwargs) (project : Project.t)
    (rows : list (list string)) (bad : result (list string)) (rest : csv_file) :
  get_project db (kw !! "project_id"%string) = Ok project →
  Request.FILES request !! "csv_file"%string = Some ((Ok <$> rows) ++ bad :: rest) →
  Forall (λ row, row ≠ []) rows →
  row_fails bad = true →
  let out := DatasetUpload_post db request kw in
  (∃ created,
     documents_added db (out_db out) created ∧
     length created = length rows ∧
     documents_of_rows project rows created) ∧
  out_result out =
    Ok (HttpResponseRedirect (reverse "dataset-upload" [Project.id project])).
Proof.
  intros Hp Hfile Hrows Hbad out. subst out.
  unfold DatasetUpload_post, import_csv, getitem. rewrite Hp, Hfile.
  destruct (import_lines_rows rows (bad :: rest) project db Hrows)
    as (created & db' & Hrun & Hadd & Hdocs).
  rewrite Hrun.
  assert (Hstop : ∃ e, import_lines (bad :: rest) project db' = (db', Raise e)).
  { destruct bad as [[|? ?]|e]; simpl in *; [by eexists | done | by eexists]. }
  destruct Hstop as [e ->]. simpl. split; [|done].
  exists created. split; [done|]. split; [|done].
  destruct Hdocs as [Htexts _].
  apply (f_equal length) in Htexts. by rewrite !length_fmap in Htexts.
Qed.

Lemma csv_import_not_atomic_witness :
  let out := DatasetUpload_post sample_db
               (upload_request (AuthUser alice)
                  [Ok ["fine"]; Ok ["so so"]; Ok []; Ok ["never read"]])
               (sample_kwargs [("project_id", 1)]) in
  (∃ created,
     documents_added sample_db (out_db out) created ∧
     length created = 2%nat ∧
     documents_of_rows news [["fine"]; ["so so"]]%string created) ∧
  out_result out =
    Ok (HttpResponseRedirect (reverse "dataset-upload" [Project.id news])).
Proof.
  apply (csv_import_not_atomic sample_db
           (upload_request (AuthUser alice)
              [Ok ["fine"]; Ok ["so so"]; Ok []; Ok ["never read"]])
           (sample_kwargs [("project_id", 1)]) news
           [["fine"]; ["so so"]]%string (Ok []) [Ok ["never read"%string]]).
  - vm_compute. reflexivity.
  - vm_compute. reflexivity.
  - repeat constructor; discriminate.
  - reflexivity.
Defined.

(** * Progress *)

Lemma filter_nil_Forall {A} (P : A → Prop) `{!∀ x, Decision (P x)} (l : list A) :
  filter P l = [] ↔ Forall (λ x, ¬ P x) l.
Proof.
  induction l as [|x l IH]; [by rewrite filter_nil|].
  rewrite filter_cons, Forall_cons. destruct (decide (P x)) as [HP | HP].
  - split; [done | by intros [? _]].
  - rewrite IH. tauto.
Qed.

Lemma get_annotations_nil (db : DB.t) (p : Project.t) (d : Document.t) :
  get_annotations db p d = [] ↔ unannotated db p d.
Proof.
  unfold get_annotations, unannotated, annotation_rows.
  destruct (get_annotation_class p) as [cls|e].
  - apply filter_nil_Forall.
  - split; [constructor | done].
Qed.



Example progress_of_news :
  ProjectViewSet_progress sample_db (sample_request "GET" (AuthUser alice) []) (Some 1) =
    Ok (Response (Data (JObject [("total"%string, JNum 2); ("remaining"%string, JNum 1)]))).
Proof. vm_compute. reflexivity. Qed.

(** The queryset of the view joins projects with users and matches keys by
    containment: bob (key 2) does not see the project of alice alone, and
    alice (key 1) meets her project twice when key 11 is a member too. *)
Example progress_hidden_project :
  ProjectViewSet_progress sample_db (sample_request "GET" (AuthUser bob) []) (Some 2)
  = Raise Http404.
Proof. vm_compute. reflexivity. Qed.

Example progress_doubled_project :
  ProjectViewSet_progress crowded_db (sample_request "GET" (AuthUser alice) []) (Some 1)
  = Raise MultipleObjectsReturned.
Proof. vm_compute. reflexivity. Qed.


(** * Statistics *)

Lemma Counter_foldl_getitem (xs : list string) (c : gmap string Z) (k : string) :
  Counter_getitem
    (foldl (λ c elem, <[elem := default 0 (c !! elem) + 1]> c) c xs) k
  = Counter_getitem c k + Z.of_nat (length (filter (λ x, x = k) xs)).
Proof.
  revert c. induction xs as [|x xs IH]; intros c.
  - rewrite filter_nil. simpl. lia.
  - rewrite filter_cons. simpl foldl. rewrite IH. unfold Counter_getitem.
    destruct (decide (x = k)) as [-> | Hne].
    + rewrite lookup_insert_eq. simpl. lia.
    + by rewrite lookup_insert_ne.
Qed.

(** [Counter(xs)[k]] is the number of occurrences of [k] in [xs]. *)
Lemma Counter_getitem_count (xs : list string) (k : string) :
  Counter_getitem (Counter xs) k = Z.of_nat (length (filter (λ x, x = k) xs)).
Proof.
  unfold Counter. rewrite Counter_foldl_getitem.
  unfold Counter_getitem. by rewrite lookup_empty.
Qed.

Lemma for_each_Ok {A B} (f : A → result B) (xs : list A) :
  Forall (λ x, ∃ y, f x = Ok y) xs →
  ∃ ys, for_each f xs = Ok ys ∧ Forall2 (λ x y, f x = Ok y) xs ys.
Proof.
  induction 1 as [|x xs [y Hy] _ (ys & Hys & Hall)]; simpl.
  - exists []. by split.
  - exists (y :: ys). rewrite Hy. simpl. rewrite Hys. simpl.
    split; [done | by constructor].
Qed.

Lemma for_each_nested_Ok {A B D} (f : A → result B) (h : D → list A) (docs : list D) :
  Forall (λ a, ∃ y, f a = Ok y) (docs ≫= h) →
  ∃ nested,
    for_each (λ doc, for_each f (h doc)) docs = Ok nested ∧
    Forall2 (λ a y, f a = Ok y) (docs ≫= h) (concat nested).
Proof.
  induction docs as [|doc docs IH].
  - intros _. exists []. by split.
  - rewrite bind_cons. intros [Hdoc Hrest]%Forall_app. simpl.
    destruct (for_each_Ok f (h doc) Hdoc) as (ys & Hys & Hall).
    destruct (IH Hrest) as (nested & Hnested & Hall').
    exists (ys :: nested). rewrite Hys. simpl. rewrite Hnested. simpl.
    split; [done | by apply Forall2_app].
Qed.

Lemma count_Forall2 {A} (f : A → result string) (xs : list A) (ts : list string)
    (name : string) :
  Forall2 (λ a t, f a = Ok t) xs ts →
  length (filter (λ t, t = name) ts) = length (filter (λ a, f a = Ok name) xs).
Proof.
  induction 1 as [|a t xs ts Hat _ IH]; [done|].
  rewrite !filter_cons, Hat.
  destruct (decide (t = name)) as [-> | Hne].
  - rewrite decide_True by done. simpl. by rewrite IH.
  - rewrite decide_False by congruence. done.
Qed.

(** When every annotation of the project has a label and an author to read,
    the stats endpoint answers with the shape
    {label: {labels, data}, user: {users, data}}, where data lists, for each
    label text (username), the number of the project's annotations with that
    label text (by that author). *)
Lemma stats_counts_annotations
    (db : DB.t) (kw : kwargs) (project_id : Z) (p : Project.t) :
  kw !! "project_id"%string = Some project_id →
  get_project db (Some project_id) = Ok p →
  Forall (λ a, (∃ t, label_text db a = Ok t) ∧ (∃ n, author_name db a = Ok n))
         (project_annotations db p) →
  ProjectStatsAPI_get db kw =
    Ok (Response (Data (stats_json
          (Label.text <$> project_labels_all db p)
          (count_label db p <$> (Label.text <$> project_labels_all db p))
          (User.username <$> project_users_all db p)
          (count_author db p <$> (User.username <$> project_users_all db p))))).
Proof.
  intros Hkw Hp Hall. unfold ProjectStatsAPI_get, getitem.
  rewrite Hkw. simpl. rewrite Hp. simpl.
  destruct (for_each_nested_Ok (label_text db) (get_annotations db p)
              (project_documents_all db p)) as (nested_labels & -> & Hlabels).
  { eapply Forall_impl; [exact Hall | by intros a [? _]]. }
  simpl.
  destruct (for_each_nested_Ok (author_name db) (get_annotations db p)
              (project_documents_all db p)) as (nested_users & -> & Husers).
  { eapply Forall_impl; [exact Hall | by intros a [_ ?]]. }
  simpl.
  assert (Hl : ∀ names : list string,
             Counter_getitem (Counter (concat nested_labels)) <$> names
             = count_label db p <$> names).
  { intros names. apply list_fmap_ext. intros _ name _.
    rewrite Counter_getitem_count. unfold count_label. f_equal.
    by apply count_Forall2. }
  assert (Hu : ∀ names : list string,
             Counter_getitem (Counter (concat nested_users)) <$> names
             = count_author db p <$> names).
  { intros names. apply list_fmap_ext. intros _ name _.
    rewrite Counter_getitem_count. unfold count_author. f_equal.
    by apply count_Forall2. }
  by rewrite Hl, Hu.
Qed.

Lemma queryset_get_unique {A} (f : A → Z) (rows : list A) (k : Z) :
  NoDup (f <$> rows) → k ∈ f <$> rows →
  ∃ x, queryset_get (filter (λ y, f y = k) rows) = Ok x.
Proof.
  induction rows as [|x rows IH]; [by intros _ ?%elem_of_nil|].
  rewrite fmap_cons, NoDup_cons, filter_cons. intros [Hx Hnd] Hk.
  destruct (decide (f x = k)) as [<- | Hne].
  - exists x. assert (Hnone : filter (λ y, f y = f x) rows = []).
    { apply filter_nil_Forall, Forall_forall. intros y Hy Heq.
      apply Hx. rewrite <-Heq. by apply list_elem_of_fmap_2. }
    by rewrite Hnone.
  - apply elem_of_cons in Hk as [-> | Hk]; [done | by apply IH].
Qed.

Lemma label_bearing_annotations_readable (db : DB.t) (p : Project.t) :
  keys_resolve db → label_bearing p →
  Forall (λ a, (∃ t, label_text db a = Ok t) ∧ (∃ n, author_name db a = Ok n))
         (project_annotations db p).
Proof.
  intros (Hlabels & Husers & Hdoc & Hseq) Hp.
  assert (Hrows : Forall (λ a, (∃ t, label_text db a = Ok t) ∧
                               (∃ n, author_name db a = Ok n))
                         (annotation_rows db p)).
  { unfold annotation_rows, get_annotation_class, is_type_of.
    destruct Hp as [-> | ->]; simpl; apply Forall_fmap;
      [eapply Forall_impl; [exact Hdoc|] | eapply Forall_impl; [exact Hseq|]];
      intros a [Hl Hu]; unfold label_text, author_name, annotation_user_row; simpl;
      destruct (queryset_get_unique Label.id _ _ Hlabels Hl) as [l ->];
      destruct (queryset_get_unique User.id _ _ Husers Hu) as [u ->];
      simpl; eauto. }
  unfold project_annotations. apply Forall_forall. intros a Ha.
  apply list_elem_of_bind in Ha as (doc & Ha & _).
  rewrite Forall_forall in Hrows. apply Hrows.
  unfold get_annotations in Ha. unfold annotation_rows.
  destruct (get_annotation_class p); [|by apply elem_of_nil in Ha].
  by apply list_elem_of_filter in Ha as [_ Ha].
Qed.

(** On a document-classification or sequence-labeling project of a database
    whose keys resolve, the stats endpoint answers with the claimed shape
    and counts. *)
Lemma stats_of_label_bearing_project
    (db : DB.t) (kw : kwargs) (project_id : Z) (p : Project.t) :
  kw !! "project_id"%string = Some project_id →
  get_project db (Some project_id) = Ok p →
  keys_resolve db → label_bearing p →
  ProjectStatsAPI_get db kw =
    Ok (Response (Data (stats_json
          (Label.text <$> project_labels_all db p)
          (count_label db p <$> (Label.text <$> project_labels_all db p))
          (User.username <$> project_users_all db p)
          (count_author db p <$> (User.username <$> project_users_all db p))))).
Proof.
  intros Hkw Hp Hkeys Hty. apply (stats_counts_annotations db kw project_id p Hkw Hp).
  by apply label_bearing_annotations_readable.
Qed.

Example stats_of_news :
  ProjectStatsAPI_get sample_db (sample_kwargs [("project_id", 1)]) =
    Ok (Response (Data (stats_json ["pos"; "neg"] [2; 0] ["alice"; "bob"] [1; 1]))).
Proof. vm_compute. reflexivity. Qed.

Example sample_db_keys_resolve : keys_resolve sample_db.
Proof.
  unfold keys_resolve. simpl.
  split_and!.
  - apply (bool_decide_unpack _). by vm_compute.
  - apply (bool_decide_unpack _). by vm_compute.
  - repeat constructor; apply (bool_decide_unpack _); by vm_compute.
  - repeat constructor; apply (bool_decide_unpack _); by vm_compute.
Qed.

Example stats_of_ner :
  ProjectStatsAPI_get sample_db (sample_kwargs [("project_id", 2)]) =
    Ok (Response (Data (stats_json ["PER"] [1] ["alice"] [1]))).
Proof. vm_compute. reflexivity. Qed.

(** C3 fails on a sequence-to-sequence project that has an annotation: a
    Seq2seqAnnotation has no label, and reading [a.label] ends the request
    with AttributeError instead of the statistics. *)
Theorem stats_of_seq2seq_project_raises :
  get_project sample_db (Some 3) = Ok mt ∧
  Project.project_type mt = Seq2seq ∧
  project_annotations sample_db mt =
    [AS2S {| Seq2seqAnnotation.id := 1; Seq2seqAnnotation.document := 4;
             Seq2seqAnnotation.text := "bonjour"; Seq2seqAnnotation.manual := true;
             Seq2seqAnnotation.user := 2 |}] ∧
  ProjectStatsAPI_get sample_db (sample_kwargs [("project_id", 3)]) = Raise AttributeError.
Proof. repeat split; vm_compute; reflexivity. Qed.

(** * Creating and updating annotations *)

Lemma Annotation_insert_added (db : DB.t) (a : Annotation) :
  annotation_added db (Annotation_insert db a).1 (Annotation_insert db a).2 ∧
  class_of (Annotation_insert db a).2 = class_of a ∧
  annotation_user (Annotation_insert db a).2 = annotation_user a ∧
  annotation_manual (Annotation_insert db a).2 = annotation_manual a ∧
  annotation_document (Annotation_insert db a).2 = annotation_document a.
Proof. destruct a; unfold annotation_added; simpl; done. Qed.

(** A sequence of steps returns only if each step does. *)
Lemma bind_Ok {A B} (m : result A) (f : A → result B) (b : B) :
  m ≫= f = Ok b → ∃ a, m = Ok a ∧ f a = Ok b.
Proof. destruct m as [a|e]; [by exists a | done]. Qed.

Lemma getitem_Ok {V} (d : gmap string V) (k : string) (v : V) :
  getitem d k = Ok v → d !! k = Some v.
Proof. unfold getitem. by destruct (d !! k); intros [= ->]. Qed.

Lemma get_object_or_404_elem {A} (rows : list A) (x : A) :
  get_object_or_404 rows = Ok x → rows = [x].
Proof.
  unfold get_object_or_404, queryset_get.
  destruct rows as [|y [|? ?]]; simpl; try done. by intros [= ->].
Qed.

Lemma get_document_id db pk doc : get_document db pk = Ok doc → pk = Some (Document.id doc).
Proof.
  unfold get_document. intros H%get_object_or_404_elem.
  assert (Hin : doc ∈ filter (λ d, pk_is pk (Document.id d) = true) (DB.documents db))
    by (rewrite H; set_solver).
  apply list_elem_of_filter in Hin as [Hpk _].
  destruct pk as [n|]; simpl in Hpk; [|done].
  apply bool_decide_eq_true in Hpk. by subst.
Qed.

Lemma user_fk_Ok u k : user_fk u = Ok k → ∃ row, u = AuthUser row ∧ k = User.id row.
Proof. destruct u as [|row]; simpl; [done|]. intros [= <-]. eauto. Qed.

(** What the instance built by [AnnotationsAPI.post] carries, before it is
    saved. *)
Lemma post_annotation_built
    (db : DB.t) (request : Request.t) (kw : kwargs)
    (project_id : Z) (project : Project.t) (cls : annotation_class) (a : Annotation) :
  kw !! "project_id"%string = Some project_id →
  get_project db (Some project_id) = Ok project →
  AnnotationsAPI_post_annotation db request kw = Ok (cls, a) →
  ∃ u,
    get_annotation_serializer project = Ok cls ∧
    class_of a = cls ∧
    subtype_for (Project.project_type project) request a ∧
    Request.user request = AuthUser u ∧
    annotation_user a = User.id u ∧
    annotation_manual a = true ∧
    kw !! "doc_id"%string = Some (annotation_document a).
Proof.
  intros Hkw Hp H. unfold AnnotationsAPI_post_annotation in H.
  apply bind_Ok in H as (doc_id & Hdocid%getitem_Ok & H).
  apply bind_Ok in H as (doc & Hdoc%get_document_id & H).
  apply bind_Ok in H as (project_id' & Hkw'%getitem_Ok & H).
  rewrite Hkw in Hkw'. injection Hkw' as <-. rewrite Hp in H. simpl in H.
  apply bind_Ok in H as (cls' & Hser & H).
  apply bind_Ok in H as (a' & Hbuilt & [= <- <-]).
  rewrite Hdocid. injection Hdoc as ->.
  unfold get_annotation_serializer, get_annotation_class, is_type_of in *.
  destruct (Project.project_type project) as [| | |tag]; simpl in *;
    try discriminate Hser; injection Hser as <-.
  - apply bind_Ok in Hbuilt as (label_id & _ & Hbuilt).
    apply bind_Ok in Hbuilt as (pk & _ & Hbuilt).
    apply bind_Ok in Hbuilt as (label & _ & Hbuilt).
    apply bind_Ok in Hbuilt as (k & (u & Hu & ->)%user_fk_Ok & [= <-]).
    exists u. simpl. eauto 10.
  - apply bind_Ok in Hbuilt as (label_id & _ & Hbuilt).
    apply bind_Ok in Hbuilt as (pk & _ & Hbuilt).
    apply bind_Ok in Hbuilt as (label & _ & Hbuilt).
    apply bind_Ok in Hbuilt as (so & Hso%getitem_Ok & Hbuilt).
    apply bind_Ok in Hbuilt as (eo & Heo%getitem_Ok & Hbuilt).
    apply bind_Ok in Hbuilt as (k & (u & Hu & ->)%user_fk_Ok & Hbuilt).
    apply bind_Ok in Hbuilt as (so' & Hso' & Hbuilt).
    apply bind_Ok in Hbuilt as (eo' & Heo' & [= <-]).
    exists u. simpl. repeat split; eauto 10.
  - apply bind_Ok in Hbuilt as (text & Htext%getitem_Ok & Hbuilt).
    apply bind_Ok in Hbuilt as (k & (u & Hu & ->)%user_fk_Ok & [= <-]).
    exists u. simpl. repeat split; eauto 10.
Qed.

Lemma subtype_for_insert (db : DB.t) (ty : project_type) (request : Request.t)
    (a : Annotation) :
  subtype_for ty request a → subtype_for ty request (Annotation_insert db a).2.
Proof.
  destruct ty; simpl; [| | |done].
  - intros [row ->]. simpl. eauto.
  - intros (row & so & eo & -> & Hso & Heo & Hso' & Heo'). simpl.
    eexists _, so, eo. repeat split; done.
  - intros (row & text & -> & Htext & Hrow). simpl.
    eexists _, text. repeat split; done.
Qed.

(** C2: an annotation created through the POST endpoint has the subtype that
    the project's type determines (DocumentAnnotation; SequenceAnnotation
    with the request's start_offset and end_offset; Seq2seqAnnotation with
    the request's text), is attached to the document of the request, has the
    requesting user as its author and has its manual flag set; it is the one
    row added to the database and the one serialized in the response. *)
Theorem post_creates_annotation_of_project_type
    (db db' : DB.t) (request : Request.t) (kw : kwargs)
    (project_id : Z) (project : Project.t) (resp : response) :
  kw !! "project_id"%string = Some project_id →
  get_project db (Some project_id) = Ok project →
  AnnotationsAPI_post db request kw = (db', Ok resp) →
  ∃ cls a u,
    resp = Response (AnnotationSerializerData cls a) ∧
    get_annotation_serializer project = Ok cls ∧
    class_of a = cls ∧
    subtype_for (Project.project_type project) request a ∧
    Request.user request = AuthUser u ∧
    annotation_user a = User.id u ∧
    annotation_manual a = true ∧
    kw !! "doc_id"%string = Some (annotation_document a) ∧
    annotation_added db db' a.
Proof.
  intros Hkw Hp Hpost. unfold AnnotationsAPI_post in Hpost.
  destruct (AnnotationsAPI_post_annotation db request kw) as [[cls a0]|e] eqn:Hbuilt;
    [|by inversion Hpost].
  destruct (post_annotation_built _ _ _ _ _ _ _ Hkw Hp Hbuilt)
    as (u & Hser & Hcls & Hsub & Hu & Hauthor & Hmanual & Hdoc).
  destruct (Annotation_insert_added db a0) as (Hadd & Hcls' & Hauthor' & Hmanual' & Hdoc').
  apply (subtype_for_insert db) in Hsub.
  destruct (Annotation_insert db a0) as [db1 a]. injection Hpost as <- <-.
  simpl in *. exists cls, a, u.
  repeat (split; [first [done | congruence]|]). exact Hadd.
Qed.

Lemma post_creates_annotation_of_project_type_witness :
  ∃ cls a u,
    Response (AnnotationSerializerData SequenceAnnotationCls
      (ASeq {| SequenceAnnotation.id := 2; SequenceAnnotation.document := 3;
               SequenceAnnotation.label := 3; SequenceAnnotation.manual := true;
               SequenceAnnotation.user := 1;
               SequenceAnnotation.start_offset := 0;
               SequenceAnnotation.end_offset := 2 |}))
    = Response (AnnotationSerializerData cls a) ∧
    get_annotation_serializer ner = Ok cls ∧
    class_of a = cls ∧
    subtype_for (Project.project_type ner)
      (sample_request "POST" (AuthUser alice)
         [("label_id", VInt 3); ("start_offset", VInt 0); ("end_offset", VStr "2")]%string) a ∧
    Request.user
      (sample_request "POST" (AuthUser alice)
         [("label_id", VInt 3); ("start_offset", VInt 0); ("end_offset", VStr "2")]%string)
    = AuthUser u ∧
    annotation_user a = User.id u ∧
    annotation_manual a = true ∧
    sample_kwargs [("project_id", 2); ("doc_id", 3)]%string !! "doc_id"%string
    = Some (annotation_document a) ∧
    annotation_added sample_db
      (AnnotationsAPI_post sample_db
         (sample_request "POST" (AuthUser alice)
            [("label_id", VInt 3); ("start_offset", VInt 0); ("end_offset", VStr "2")]%string)
         (sample_kwargs [("project_id", 2); ("doc_id", 3)]%string)).1 a.
Proof.
  apply (post_creates_annotation_of_project_type sample_db _
           (sample_request "POST" (AuthUser alice)
              [("label_id", VInt 3); ("start_offset", VInt 0); ("end_offset", VStr "2")]%string)
           (sample_kwargs [("project_id", 2); ("doc_id", 3)]%string) 2 ner).
  - vm_compute. reflexivity.
  - vm_compute. reflexivity.
  - vm_compute. reflexivity.
Defined.

Example post_to_classification_project :
  (AnnotationsAPI_post sample_db
     (sample_request "POST" (AuthUser bob) [("label_id", VInt 2)]%string)
     (sample_kwargs [("project_id", 1); ("doc_id", 2)]%string)).2
  = Ok (Response (AnnotationSerializerData DocumentAnnotationCls
          (ADoc {| DocumentAnnotation.id := 3; DocumentAnnotation.document := 2;
                   DocumentAnnotation.label := 2; DocumentAnnotation.manual := true;
                   DocumentAnnotation.user := 2 |}))).
Proof. vm_compute. reflexivity. Qed.

Example post_to_seq2seq_project :
  (AnnotationsAPI_post sample_db
     (sample_request "POST" (AuthUser bob) [("text", VStr "salut")]%string)
     (sample_kwargs [("project_id", 3); ("doc_id", 4)]%string)).2
  = Ok (Response (AnnotationSerializerData Seq2seqAnnotationCls
          (AS2S {| Seq2seqAnnotation.id := 2; Seq2seqAnnotation.document := 4;
                   Seq2seqAnnotation.text := "salut"; Seq2seqAnnotation.manual := true;
                   Seq2seqAnnotation.user := 2 |}))).
Proof. vm_compute. reflexivity. Qed.

Example post_without_offsets :
  AnnotationsAPI_post sample_db
     (sample_request "POST" (AuthUser alice) [("label_id", VInt 3)]%string)
     (sample_kwargs [("project_id", 2); ("doc_id", 3)]%string)
  = (sample_db, Raise KeyError).
Proof. vm_compute. reflexivity. Qed.

(** On a sequence-to-sequence project the PUT handler overwrites the text
    of the annotation whose key is the request's [id] and answers with the
    updated annotation. *)
Lemma put_updates_seq2seq_annotation
    (db : DB.t) (request : Request.t) (kw : kwargs)
    (project_id doc_id pk : Z) (project : Project.t) (doc : Document.t)
    (text id : value) (row : Seq2seqAnnotation.t) :
  kw !! "doc_id"%string = Some doc_id →
  get_document db (Some doc_id) = Ok doc →
  kw !! "project_id"%string = Some project_id →
  get_project db (Some project_id) = Ok project →
  Project.project_type project = Seq2seq →
  Request.data request !! "text"%string = Some text →
  Request.data request !! "id"%string = Some id →
  int_of_value id = Ok pk →
  get_object_or_404
    (filter (λ a, Seq2seqAnnotation.id a = pk) (DB.seq2seq_annotations db)) = Ok row →
  let updated :=
    {| Seq2seqAnnotation.id := Seq2seqAnnotation.id row;
       Seq2seqAnnotation.document := Seq2seqAnnotation.document row;
       Seq2seqAnnotation.text := str_of_value text;
       Seq2seqAnnotation.manual := Seq2seqAnnotation.manual row;
       Seq2seqAnnotation.user := Seq2seqAnnotation.user row |} in
  AnnotationAPI_put db request kw =
    (Seq2seqAnnotation_update db updated,
     Ok (Response (AnnotationSerializerData Seq2seqAnnotationCls (AS2S updated)))).
Proof.
  intros Hdocid Hdoc Hkw Hp Hty Htext Hid Hpk Hrow updated. subst updated.
  unfold AnnotationAPI_put, AnnotationAPI_put_annotation, getitem.
  rewrite Hdocid. simpl. rewrite Hdoc. simpl. rewrite Hkw. simpl. rewrite Hp. simpl.
  unfold get_annotation_serializer, get_annotation_class, is_type_of.
  rewrite Hty. simpl. rewrite Htext. simpl. rewrite Hid. simpl. rewrite Hpk. simpl.
  rewrite Hrow. reflexivity.
Qed.

Example put_to_seq2seq_project :
  AnnotationAPI_dispatch_put sample_db
    (sample_request "PUT" (AuthUser bob) [("id", VInt 1); ("text", VStr "salut")]%string)
    (sample_kwargs [("project_id", 3); ("doc_id", 4); ("annotation_id", 1)]%string)
  = (Seq2seqAnnotation_update sample_db
       {| Seq2seqAnnotation.id := 1; Seq2seqAnnotation.document := 4;
          Seq2seqAnnotation.text := "salut"; Seq2seqAnnotation.manual := true;
          Seq2seqAnnotation.user := 2 |},
     Ok (Response (AnnotationSerializerData Seq2seqAnnotationCls
           (AS2S {| Seq2seqAnnotation.id := 1; Seq2seqAnnotation.document := 4;
                    Seq2seqAnnotation.text := "salut"; Seq2seqAnnotation.manual := true;
                    Seq2seqAnnotation.user := 2 |})))).
Proof. vm_compute. reflexivity. Qed.

(** C9 fails on the two label-bearing project types: a member who owns an
    annotation of a document-classification or sequence-labeling project
    passes the permission checks, and the PUT handler then reaches
    [annotation.save()] with [annotation] unbound; the request ends with
    UnboundLocalError and the database is unchanged. *)
Theorem put_to_labelled_project_raises :
  (check_permissions AnnotationAPI_permission_classes sample_db
     (sample_request "PUT" (AuthUser alice) [("id", VInt 1); ("label_id", VInt 2)]%string)
     (sample_kwargs [("project_id", 1); ("doc_id", 1); ("annotation_id", 1)]%string)
   = Ok () ∧
   AnnotationAPI_dispatch_put sample_db
     (sample_request "PUT" (AuthUser alice) [("id", VInt 1); ("label_id", VInt 2)]%string)
     (sample_kwargs [("project_id", 1); ("doc_id", 1); ("annotation_id", 1)]%string)
   = (sample_db, Raise UnboundLocalError)) ∧
  (check_permissions AnnotationAPI_permission_classes sample_db
     (sample_request "PUT" (AuthUser alice)
        [("id", VInt 1); ("label_id", VInt 3);
         ("start_offset", VInt 0); ("end_offset", VInt 2)]%string)
     (sample_kwargs [("project_id", 2); ("doc_id", 3); ("annotation_id", 1)]%string)
   = Ok () ∧
   AnnotationAPI_dispatch_put sample_db
     (sample_request "PUT" (AuthUser alice)
        [("id", VInt 1); ("label_id", VInt 3);
         ("start_offset", VInt 0); ("end_offset", VInt 2)]%string)
     (sample_kwargs [("project_id", 2); ("doc_id", 3); ("annotation_id", 1)]%string)
   = (sample_db, Raise UnboundLocalError)).
Proof. repeat split; vm_compute; reflexivity. Qed.

(** * The permission pipelines of the views *)

Lemma check_permissions_iff (perms : list permission) db request kw :
  check_permissions perms db request kw = Ok () ↔
  Forall (λ perm, has_permission perm db request kw = Ok true) perms.
Proof.
  induction perms as [|q perms IH]; simpl.
  - split; [constructor | done].
  - rewrite Forall_cons, <-IH.
    destruct (has_permission q db request kw) as [[|]|e]; simpl.
    + split; [done | by intros [_ ?]].
    + split; [|by intros [? _]].
      unfold permission_denied. by destruct (Request.user request).
    + split; [done | by intros [? _]].
Qed.

Lemma IsProjectUser_true_iff (db : DB.t) (request : Request.t) (kw : kwargs) :
  IsProjectUser_has_permission db request kw = Ok true ↔
  is_project_member db request kw.
Proof.
  unfold IsProjectUser_has_permission, is_project_member.
  destruct (get_project db (kw !! "project_id"%string)) as [project|e]; simpl.
  - split.
    + intros [= Hin]. apply user_in_spec in Hin as (u & Hu & Hin).
      apply project_users_all_ids in Hin as [Hm Hrow]. by exists project, u.
    + intros (project' & u & [= <-] & Hu & Hm & Hrow). f_equal.
      apply user_in_spec. exists u. split; [done|].
      by apply project_users_all_ids.
  - split; [done|]. by intros (? & ? & ? & _).
Qed.

Lemma IsAdminUser_true_iff (request : Request.t) :
  IsAdminUser_has_permission request = true ↔ is_admin request.
Proof.
  unfold IsAdminUser_has_permission, is_admin.
  destruct (Request.user request) as [|u].
  - split; [done | by intros (? & ? & _)].
  - split; [by exists u | by intros (? & [= <-] & ?)].
Qed.

Lemma IsAdminUserAndWriteOnly_true_iff (request : Request.t) :
  IsAdminUserAndWriteOnly_has_permission request = true ↔
  Request.method request ∈ SAFE_METHODS ∨ is_admin request.
Proof.
  unfold IsAdminUserAndWriteOnly_has_permission. case_bool_decide as Hsafe.
  - split; [by left | done].
  - rewrite IsAdminUser_true_iff. split; [by right | by intros [?|?]].
Qed.

Lemma member_is_authenticated db request kw :
  is_project_member db request kw → IsAuthenticated_has_permission request = true.
Proof.
  intros (p & u & _ & Hu & _). unfold IsAuthenticated_has_permission. by rewrite Hu.
Qed.

(** The views of a project's labels (list and create), statistics and
    documents let a request through exactly when the user is a member of
    the project and the method is a safe one or the user is an admin. *)
Theorem project_views_let_members_read_admins_write
    (db : DB.t) (request : Request.t) (kw : kwargs) (perms : list permission) :
  perms ∈ [ProjectLabelsAPI_permission_classes; ProjectStatsAPI_permission_classes;
           ProjectDocsAPI_permission_classes] →
  check_permissions perms db request kw = Ok () ↔
  is_project_member db request kw ∧
  (Request.method request ∈ SAFE_METHODS ∨ is_admin request).
Proof.
  intros Hperms.
  assert (perms = [IsAuthenticated; IsProjectUser; IsAdminUserAndWriteOnly]) as ->.
  { repeat (apply elem_of_cons in Hperms as [-> | Hperms]; [done|]).
    by apply elem_of_nil in Hperms. }
  rewrite check_permissions_iff, !Forall_cons, Forall_nil. simpl.
  rewrite IsProjectUser_true_iff. split.
  - intros (_ & Hm & [= Hw] & _). by apply IsAdminUserAndWriteOnly_true_iff in Hw.
  - intros [Hm Hw]. split_and!; [|done| |done].
    + f_equal. by eapply member_is_authenticated.
    + f_equal. by apply IsAdminUserAndWriteOnly_true_iff.
Qed.

Lemma project_views_let_members_read_admins_write_witness :
  check_permissions ProjectDocsAPI_permission_classes sample_db
    (sample_request "POST" (AuthUser alice) [])
    (sample_kwargs [("project_id", 1)]%string) = Ok () ↔
  is_project_member sample_db (sample_request "POST" (AuthUser alice) [])
    (sample_kwargs [("project_id", 1)]%string) ∧
  (Request.method (sample_request "POST" (AuthUser alice) []) ∈ SAFE_METHODS ∨
   is_admin (sample_request "POST" (AuthUser alice) [])).
Proof.
  apply (project_views_let_members_read_admins_write sample_db
           (sample_request "POST" (AuthUser alice) [])
           (sample_kwargs [("project_id", 1)]%string)
           ProjectDocsAPI_permission_classes).
  set_solver.
Defined.

Example member_cannot_write_documents :
  check_permissions ProjectDocsAPI_permission_classes sample_db
    (sample_request "POST" (AuthUser bob) [])
    (sample_kwargs [("project_id", 1)]%string) = Raise PermissionDenied.
Proof. vm_compute. reflexivity. Qed.

(** The view of a single label lets a request through exactly when the
    user is a member of the project and an admin, whatever the method: a
    member who is not an admin can list the labels but cannot retrieve
    one. *)
Theorem single_label_view_is_for_admin_members
    (db : DB.t) (request : Request.t) (kw : kwargs) :
  check_permissions ProjectLabelAPI_permission_classes db request kw = Ok () ↔
  is_project_member db request kw ∧ is_admin request.
Proof.
  unfold ProjectLabelAPI_permission_classes.
  rewrite check_permissions_iff, !Forall_cons, Forall_nil. simpl.
  rewrite IsProjectUser_true_iff. split.
  - intros (_ & Hm & [= Ha] & _). by apply IsAdminUser_true_iff in Ha.
  - intros [Hm Ha]. split_and!; [|done| |done].
    + f_equal. by eapply member_is_authenticated.
    + f_equal. by apply IsAdminUser_true_iff.
Qed.

Example member_lists_labels_but_cannot_retrieve_one :
  check_permissions ProjectLabelsAPI_permission_classes sample_db
    (sample_request "GET" (AuthUser bob) [])
    (sample_kwargs [("project_id", 1); ("label_id", 1)]%string) = Ok () ∧
  check_permissions ProjectLabelAPI_permission_classes sample_db
    (sample_request "GET" (AuthUser bob) [])
    (sample_kwargs [("project_id", 1); ("label_id", 1)]%string) = Raise PermissionDenied.
Proof. split; vm_compute; reflexivity. Qed.

(** Every API view checks IsAuthenticated first: an anonymous request ends
    in NotAuthenticated before any project is looked up, whether or not the
    project of the URL exists. *)
Theorem anonymous_request_is_not_authenticated
    (db : DB.t) (request : Request.t) (kw : kwargs) (perms : list permission) :
  perms ∈ [ProjectViewSet_permission_classes; ProjectLabelsAPI_permission_classes;
           ProjectStatsAPI_permission_classes; ProjectLabelAPI_permission_classes;
           ProjectDocsAPI_permission_classes; AnnotationsAPI_permission_classes;
           AnnotationAPI_permission_classes] →
  Request.user request = AnonymousUser →
  check_permissions perms db request kw = Raise NotAuthenticated.
Proof.
  intros Hperms Hu.
  repeat (apply elem_of_cons in Hperms as [-> | Hperms];
          [simpl; unfold IsAuthenticated_has_permission, permission_denied;
           by rewrite Hu|]).
  by apply elem_of_nil in Hperms.
Qed.

Lemma anonymous_request_is_not_authenticated_witness :
  check_permissions AnnotationAPI_permission_classes sample_db
    (sample_request "PUT" AnonymousUser [])
    (sample_kwargs [("project_id", 99)]%string) = Raise NotAuthenticated.
Proof.
  apply (anonymous_request_is_not_authenticated sample_db
           (sample_request "PUT" AnonymousUser [])
           (sample_kwargs [("project_id", 99)]%string)
           AnnotationAPI_permission_classes).
  - set_solver.
  - reflexivity.
Defined.

Lemma IsOwnAnnotation_true_iff (db : DB.t) (request : Request.t) (kw : kwargs) :
  IsOwnAnnotation_has_permission db request kw = Ok true ↔
  ∃ project cls annotation,
    get_project db (kw !! "project_id"%string) = Ok project ∧
    get_annotation_class project = Ok cls ∧
    queryset_get
      (filter (λ a, pk_is (kw !! "annotation_id"%string) (annotation_id a) = true)
              (objects_all db cls)) = Ok annotation ∧
    authored_by annotation (Request.user request).
Proof.
  unfold IsOwnAnnotation_has_permission. split.
  - intros H.
    apply bind_Ok in H as (project & Hp & H).
    apply bind_Ok in H as (cls & Hcls & H).
    apply bind_Ok in H as (a & Ha & [= Heq]).
    exists project, cls, a. split_and!; try done.
    unfold authored_by, user_eq in *.
    destruct (Request.user request) as [|u]; [done|].
    apply bool_decide_eq_true in Heq. by exists u.
  - intros (project & cls & a & -> & Hcls & Ha & (u & Hu & Hauthor)). simpl.
    rewrite Hcls. simpl. rewrite Ha. simpl. f_equal.
    rewrite Hu. simpl. by apply bool_decide_eq_true.
Qed.

Lemma annotation_view_checks (db : DB.t) (request : Request.t) (kw : kwargs) :
  check_permissions AnnotationAPI_permission_classes db request kw = Ok () ↔
  is_project_member db request kw ∧
  IsOwnAnnotation_has_permission db request kw = Ok true.
Proof.
  unfold AnnotationAPI_permission_classes.
  rewrite check_permissions_iff, !Forall_cons, Forall_nil. simpl.
  rewrite IsProjectUser_true_iff. split.
  - by intros (_ & Hm & Ho & _).
  - intros [Hm Ho]. split_and!; try done.
    f_equal. by eapply member_is_authenticated.
Qed.

(** A request passes the permission checks of the single-annotation view
    exactly when the user is a member of the project of the URL and is the
    author of the annotation that the URL's [annotation_id] names in the
    annotation class of that project. *)
Theorem annotation_view_is_for_the_author
    (db : DB.t) (request : Request.t) (kw : kwargs) :
  check_permissions AnnotationAPI_permission_classes db request kw = Ok () ↔
  is_project_member db request kw ∧
  ∃ project cls annotation,
    get_project db (kw !! "project_id"%string) = Ok project ∧
    get_annotation_class project = Ok cls ∧
    queryset_get
      (filter (λ a, pk_is (kw !! "annotation_id"%string) (annotation_id a) = true)
              (objects_all db cls)) = Ok annotation ∧
    authored_by annotation (Request.user request).
Proof. by rewrite annotation_view_checks, IsOwnAnnotation_true_iff. Qed.

(** [IsOwnAnnotation] fetches the annotation with [objects.get]: when the
    project of the URL exists and no annotation of its class has the key of
    the URL, a PUT by a member of the project ends in DoesNotExist, not in
    a denial and not in Http404, and changes nothing. *)
Theorem annotation_view_missing_annotation_raises
    (db : DB.t) (request : Request.t) (kw : kwargs)
    (project : Project.t) (cls : annotation_class) :
  is_project_member db request kw →
  get_project db (kw !! "project_id"%string) = Ok project →
  get_annotation_class project = Ok cls →
  Forall (λ a, kw !! "annotation_id"%string ≠ Some (annotation_id a)) (objects_all db cls) →
  IsOwnAnnotation_has_permission db request kw = Raise DoesNotExist ∧
  AnnotationAPI_dispatch_put db request kw = (db, Raise DoesNotExist).
Proof.
  intros Hm Hp Hcls Hnone.
  assert (Hown : IsOwnAnnotation_has_permission db request kw = Raise DoesNotExist).
  { unfold IsOwnAnnotation_has_permission. rewrite Hp. simpl. rewrite Hcls. simpl.
    assert (filter (λ a, pk_is (kw !! "annotation_id"%string) (annotation_id a) = true)
                   (objects_all db cls) = []) as ->; [|done].
    apply filter_nil_Forall. eapply Forall_impl; [exact Hnone|].
    intros a Ha Hpk. apply Ha. unfold pk_is in Hpk.
    destruct (kw !! "annotation_id"%string) as [n|]; [|done].
    apply bool_decide_eq_true in Hpk. by subst. }
  split; [done|].
  unfold AnnotationAPI_dispatch_put, AnnotationAPI_permission_classes. simpl.
  rewrite (member_is_authenticated _ _ _ Hm). simpl.
  apply IsProjectUser_true_iff in Hm. rewrite Hm. simpl. by rewrite Hown.
Qed.

Lemma annotation_view_missing_annotation_raises_witness :
  IsOwnAnnotation_has_permission sample_db
    (sample_request "PUT" (AuthUser bob) [("id", VInt 1); ("text", VStr "salut")]%string)
    (sample_kwargs [("project_id", 3); ("doc_id", 4); ("annotation_id", 7)]%string)
  = Raise DoesNotExist ∧
  AnnotationAPI_dispatch_put sample_db
    (sample_request "PUT" (AuthUser bob) [("id", VInt 1); ("text", VStr "salut")]%string)
    (sample_kwargs [("project_id", 3); ("doc_id", 4); ("annotation_id", 7)]%string)
  = (sample_db, Raise DoesNotExist).
Proof.
  apply (annotation_view_missing_annotation_raises sample_db
           (sample_request "PUT" (AuthUser bob) [("id", VInt 1); ("text", VStr "salut")]%string)
           (sample_kwargs [("project_id", 3); ("doc_id", 4); ("annotation_id", 7)]%string)
           mt Seq2seqAnnotationCls).
  - exists mt, bob. split_and!; [vm_compute; reflexivity | reflexivity | set_solver | set_solver].
  - vm_compute. reflexivity.
  - vm_compute. reflexivity.
  - repeat constructor. vm_compute. discriminate.
Defined.

(** * More on the CSV bulk import *)

Lemma import_lines_adds (reader : csv_file) (project : Project.t) (db : DB.t) :
  ∃ created,
    documents_added db (import_lines reader project db).1 created ∧
    documents_of_rows project (rows_before_failure reader) created.
Proof.
  revert db. induction reader as [|[[|text cells]|e] reader IH]; intros db; simpl;
    try (exists []; split; [apply documents_added_refl | by split]).
  destruct (IH (Document_save db text project)) as (created & Hadd & Htexts & Hproj).
  apply documents_added_save in Hadd as (d & Ht & Hp & Hadd).
  exists (d :: created). split; [done|]. split.
  - rewrite !fmap_cons, Ht, Htexts. done.
  - by apply Forall_cons.
Qed.

Lemma get_project_unchanged (db db' : DB.t) (pk : option Z) :
  DB.projects db' = DB.projects db → get_project db' pk = get_project db pk.
Proof. unfold get_project. by intros ->. Qed.

Lemma get_project_id (db : DB.t) (pk : option Z) (project : Project.t) :
  get_project db pk = Ok project → pk = Some (Project.id project).
Proof.
  unfold get_project. intros H%get_object_or_404_elem.
  assert (Hin : project ∈ filter (λ p, pk_is pk (Project.id p) = true) (DB.projects db))
    by (rewrite H; set_solver).
  apply list_elem_of_filter in Hin as [Hpk _].
  destruct pk as [n|]; simpl in Hpk; [|done].
  apply bool_decide_eq_true in Hpk. by subst.
Qed.

(** Whatever is uploaded for an existing project, the import only appends
    documents: the documents that were there stay as they are, the other
    tables are untouched, and the documents added are, in order, one for
    each row read before the first failing step (a blank row or an error of
    the reader), with the row's column 0 as text, in the project of the
    URL. *)
Theorem csv_import_adds_rows_before_first_failure
    (db : DB.t) (request : Request.t) (kw : kwargs) (project : Project.t) :
  get_project db (kw !! "project_id"%string) = Ok project →
  ∃ created,
    documents_added db (out_db (DatasetUpload_post db request kw)) created ∧
    documents_of_rows project (rows_before_failure (uploaded_reader request)) created.
Proof.
  intros Hp. unfold DatasetUpload_post, import_csv, getitem, uploaded_reader.
  rewrite Hp.
  destruct (Request.FILES request !! "csv_file"%string) as [reader|]; simpl.
  - destruct (import_lines_adds reader project db) as (created & Hadd & Hrows).
    exists created. split; [|done].
    by destruct (import_lines reader project db) as [db' [[]|e]].
  - exists []. split; [apply documents_added_refl | by split].
Qed.

Lemma csv_import_adds_rows_before_first_failure_witness :
  ∃ created,
    documents_added sample_db
      (out_db (DatasetUpload_post sample_db
                 (upload_request (AuthUser alice)
                    [Ok ["fine"]; Ok ["so so"; "x"]; Raise UnicodeDecodeError; Ok ["late"]])
                 (sample_kwargs [("project_id", 1)]))) created ∧
    documents_of_rows news
      (rows_before_failure
         (uploaded_reader
            (upload_request (AuthUser alice)
               [Ok ["fine"]; Ok ["so so"; "x"]; Raise UnicodeDecodeError; Ok ["late"]])))
      created.
Proof.
  apply (csv_import_adds_rows_before_first_failure sample_db
           (upload_request (AuthUser alice)
              [Ok ["fine"]; Ok ["so so"; "x"]; Raise UnicodeDecodeError; Ok ["late"]])
           (sample_kwargs [("project_id", 1)]) news).
  vm_compute. reflexivity.
Defined.

(** After an upload to a project, the dataset page of that project lists
    the documents it listed before followed by the imported ones, and the
    dataset page of every other project lists what it listed before. *)
Theorem dataset_view_after_upload
    (db : DB.t) (request : Request.t) (kw : kwargs) (project : Project.t) :
  get_project db (kw !! "project_id"%string) = Ok project →
  let db' := out_db (DatasetUpload_post db request kw) in
  (∃ created,
     DatasetView_get_queryset db' kw = Ok (project_documents_all db project ++ created) ∧
     documents_of_rows project (rows_before_failure (uploaded_reader request)) created) ∧
  (∀ kw' other,
     get_project db (kw' !! "project_id"%string) = Ok other →
     Project.id other ≠ Project.id project →
     DatasetView_get_queryset db' kw' = DatasetView_get_queryset db kw').
Proof.
  intros Hp db'.
  assert (Hup : ∃ created,
            documents_added db db' created ∧
            documents_of_rows project (rows_before_failure (uploaded_reader request))
                              created).
  { subst db'. unfold DatasetUpload_post, import_csv, getitem, uploaded_reader.
    rewrite Hp.
    destruct (Request.FILES request !! "csv_file"%string) as [reader|]; simpl.
    - destruct (import_lines_adds reader project db) as (created & Hadd & Hrows).
      exists created. split; [|done].
      by destruct (import_lines reader project db) as [db1 [[]|e]].
    - exists []. split; [apply documents_added_refl | by split]. }
  destruct Hup as (created & Hadd & Hrows).
  destruct Hadd as (Hdocs & _ & Hprojects & _).
  split.
  - exists created. split; [|done].
    unfold DatasetView_get_queryset, getitem.
    pose proof (get_project_id _ _ _ Hp) as Hkw. rewrite Hkw. simpl.
    rewrite (get_project_unchanged db db' _ Hprojects), <-Hkw, Hp. simpl.
    unfold project_documents_all. rewrite Hdocs, filter_app. do 2 f_equal.
    destruct Hrows as [_ Hall]. clear -Hall.
    induction Hall as [|d created Hd _ IH]; [done|].
    by rewrite filter_cons_True, IH.
  - intros kw' other Hother Hne.
    unfold DatasetView_get_queryset, getitem.
    destruct (kw' !! "project_id"%string) as [pid|] eqn:Hkw'; simpl; [|done].
    rewrite (get_project_unchanged db db' _ Hprojects), Hother. simpl.
    unfold project_documents_all. rewrite Hdocs, filter_app.
    assert (filter (λ d, Document.project d = Project.id other) created = []) as ->.
    { apply filter_nil_Forall. destruct Hrows as [_ Hall].
      eapply Forall_impl; [exact Hall|]. intros d Hd. congruence. }
    by rewrite app_nil_r.
Qed.

Lemma dataset_view_after_upload_witness :
  let db' := out_db (DatasetUpload_post sample_db
                       (upload_request (AuthUser alice) [Ok ["fine"]; Ok []])
                       (sample_kwargs [("project_id", 1)])) in
  (∃ created,
     DatasetView_get_queryset db' (sample_kwargs [("project_id", 1)])
     = Ok (project_documents_all sample_db news ++ created) ∧
     documents_of_rows news
       (rows_before_failure
          (uploaded_reader (upload_request (AuthUser alice) [Ok ["fine"]; Ok []])))
       created) ∧
  (∀ kw' other,
     get_project sample_db (kw' !! "project_id"%string) = Ok other →
     Project.id other ≠ Project.id news →
     DatasetView_get_queryset db' kw' = DatasetView_get_queryset sample_db kw').
Proof.
  apply (dataset_view_after_upload sample_db
           (upload_request (AuthUser alice) [Ok ["fine"]; Ok []])
           (sample_kwargs [("project_id", 1)]) news).
  vm_compute. reflexivity.
Defined.

(** * More on creating annotations *)

Lemma getitem_Some {V} (d : gmap string V) (k : string) (v : V) :
  d !! k = Some v → getitem d k = Ok v.
Proof. unfold getitem. by intros ->. Qed.

Lemma post_annotation_iff
    (db : DB.t) (request : Request.t) (kw : kwargs)
    (cls : annotation_class) (a : Annotation) :
  AnnotationsAPI_post_annotation db request kw = Ok (cls, a) ↔
  ∃ doc project,
    kw !! "doc_id"%string = Some (Document.id doc) ∧
    get_document db (Some (Document.id doc)) = Ok doc ∧
    kw !! "project_id"%string = Some (Project.id project) ∧
    get_project db (Some (Project.id project)) = Ok project ∧
    post_instance db request project doc a ∧
    cls = class_of a.
Proof.
  unfold AnnotationsAPI_post_annotation, post_instance. split.
  - intros H.
    apply bind_Ok in H as (doc_id & Hdocid%getitem_Ok & H).
    apply bind_Ok in H as (doc & Hdoc & H).
    apply bind_Ok in H as (project_id & Hkw%getitem_Ok & H).
    apply bind_Ok in H as (project & Hp & H).
    apply bind_Ok in H as (cls' & Hser & H).
    apply bind_Ok in H as (a' & Hbuilt & [= <- <-]).
    pose proof (get_document_id _ _ _ Hdoc) as [= ->].
    pose proof (get_project_id _ _ _ Hp) as [= ->].
    exists doc, project. split_and!; try done.
    + unfold get_annotation_serializer, get_annotation_class, is_type_of in *.
      destruct (Project.project_type project) as [| | |tag]; simpl in *;
        try discriminate Hser.
      * apply bind_Ok in Hbuilt as (label_id & Hl%getitem_Ok & Hbuilt).
        apply bind_Ok in Hbuilt as (pk & Hpk & Hbuilt).
        apply bind_Ok in Hbuilt as (label & Hlabel & Hbuilt).
        apply bind_Ok in Hbuilt as (k & (u & Hu & ->)%user_fk_Ok & [= <-]).
        exists u. split; [done|]. by exists label_id, pk, label.
      * apply bind_Ok in Hbuilt as (label_id & Hl%getitem_Ok & Hbuilt).
        apply bind_Ok in Hbuilt as (pk & Hpk & Hbuilt).
        apply bind_Ok in Hbuilt as (label & Hlabel & Hbuilt).
        apply bind_Ok in Hbuilt as (so & Hso%getitem_Ok & Hbuilt).
        apply bind_Ok in Hbuilt as (eo & Heo%getitem_Ok & Hbuilt).
        apply bind_Ok in Hbuilt as (k & (u & Hu & ->)%user_fk_Ok & Hbuilt).
        apply bind_Ok in Hbuilt as (so' & Hso' & Hbuilt).
        apply bind_Ok in Hbuilt as (eo' & Heo' & [= <-]).
        exists u. split; [done|]. by exists label_id, pk, label, so, eo, so', eo'.
      * apply bind_Ok in Hbuilt as (text & Htext%getitem_Ok & Hbuilt).
        apply bind_Ok in Hbuilt as (k & (u & Hu & ->)%user_fk_Ok & [= <-]).
        exists u. split; [done|]. by exists text.
    + unfold get_annotation_serializer, get_annotation_class, is_type_of in *.
      destruct (Project.project_type project) as [| | |tag]; simpl in *;
        try discriminate Hser; injection Hser as <-.
      * apply bind_Ok in Hbuilt as (? & _ & Hbuilt).
        apply bind_Ok in Hbuilt as (? & _ & Hbuilt).
        apply bind_Ok in Hbuilt as (? & _ & Hbuilt).
        by apply bind_Ok in Hbuilt as (? & _ & [= <-]).
      * do 7 apply bind_Ok in Hbuilt as (? & _ & Hbuilt).
        by apply bind_Ok in Hbuilt as (? & _ & [= <-]).
      * apply bind_Ok in Hbuilt as (? & _ & Hbuilt).
        by apply bind_Ok in Hbuilt as (? & _ & [= <-]).
  - intros (doc & project & Hdocid & Hdoc & Hkw & Hp & (u & Hu & Hinst) & ->).
    rewrite (getitem_Some _ _ _ Hdocid). simpl. rewrite Hdoc. simpl.
    rewrite (getitem_Some _ _ _ Hkw). simpl. rewrite Hp. simpl.
    unfold get_annotation_serializer, get_annotation_class, is_type_of.
    destruct (Project.project_type project) as [| | |tag]; simpl; [| | |done].
    + destruct Hinst as (label_id & pk & label & Hl & Hpk & Hlabel & ->).
      rewrite (getitem_Some _ _ _ Hl). simpl. rewrite Hpk. simpl.
      rewrite Hlabel. simpl. rewrite Hu. done.
    + destruct Hinst as (label_id & pk & label & so & eo & s & e &
                         Hl & Hpk & Hlabel & Hso & Heo & Hs & He & ->).
      rewrite (getitem_Some _ _ _ Hl). simpl. rewrite Hpk. simpl.
      rewrite Hlabel. simpl. rewrite (getitem_Some _ _ _ Hso). simpl.
      rewrite (getitem_Some _ _ _ Heo). simpl. rewrite Hu. simpl.
      rewrite Hs. simpl. rewrite He. done.
    + destruct Hinst as (text & Htext & ->).
      rewrite (getitem_Some _ _ _ Htext). simpl. rewrite Hu. done.
Qed.

(** A document of one project annotated through the URL of another. *)
Example post_accepts_document_of_other_project :
  (AnnotationsAPI_post sample_db
     (sample_request "POST" (AuthUser bob) [("label_id", VInt 3)]%string)
     (sample_kwargs [("project_id", 1); ("doc_id", 4)]%string)).2
  = Ok (Response (AnnotationSerializerData DocumentAnnotationCls
          (ADoc {| DocumentAnnotation.id := 3; DocumentAnnotation.document := 4;
                   DocumentAnnotation.label := 3; DocumentAnnotation.manual := true;
                   DocumentAnnotation.user := 2 |}))).
Proof. vm_compute. reflexivity. Qed.

(** Through the view a POST reaches the handler only for a member of the
    project of the URL; any other request ends in an exception and leaves
    the database as it was. *)
Theorem annotations_post_is_for_members
    (db : DB.t) (request : Request.t) (kw : kwargs) :
  (is_project_member db request kw →
   AnnotationsAPI_dispatch_post db request kw = AnnotationsAPI_post db request kw) ∧
  (¬ is_project_member db request kw →
   ∃ e, AnnotationsAPI_dispatch_post db request kw = (db, Raise e)).
Proof.
  unfold AnnotationsAPI_dispatch_post.
  destruct (check_permissions AnnotationsAPI_permission_classes db request kw)
    as [[]|e] eqn:Hcheck.
  - split; [done|]. intros Hnot. destruct Hnot.
    apply check_permissions_iff in Hcheck.
    unfold AnnotationsAPI_permission_classes in Hcheck.
    rewrite !Forall_cons in Hcheck. destruct Hcheck as (_ & Hm & _).
    by apply IsProjectUser_true_iff in Hm.
  - split; [|by exists e]. intros Hm.
    assert (Hok : check_permissions AnnotationsAPI_permission_classes db request kw = Ok ()).
    { apply check_permissions_iff. unfold AnnotationsAPI_permission_classes.
      rewrite !Forall_cons, Forall_nil. simpl. split_and!; [|by apply IsProjectUser_true_iff|done].
      f_equal. by eapply member_is_authenticated. }
    congruence.
Qed.

Lemma post_instance_class (db : DB.t) (request : Request.t)
    (project : Project.t) (doc : Document.t) (a : Annotation) :
  post_instance db request project doc a →
  get_annotation_class project = Ok (class_of a) ∧
  annotation_document a = Document.id doc.
Proof.
  unfold post_instance, get_annotation_class, is_type_of.
  intros (u & _ & H).
  destruct (Project.project_type project) as [| | |tag]; simpl; [| | |done].
  - by destruct H as (? & ? & ? & _ & _ & _ & ->).
  - by destruct H as (? & ? & ? & ? & ? & ? & ? & _ & _ & _ & _ & _ & _ & _ & ->).
  - by destruct H as (? & _ & ->).
Qed.

Lemma objects_all_added (db db' : DB.t) (a : Annotation) :
  annotation_added db db' a →
  objects_all db' (class_of a) = objects_all db (class_of a) ++ [a].
Proof.
  unfold annotation_added. intros (_ & _ & _ & _ & H).
  destruct a as [row|row|row]; simpl; destruct H as (H1 & H2 & H3);
    by rewrite ?H1, ?H2, ?H3, fmap_app.
Qed.

(** Listing after creating: when a document's annotations can be listed
    through the project of the URL and a POST to the same URL creates an
    annotation, the list afterwards is the list before followed by the new
    annotation. *)
Theorem post_then_list_annotations
    (db db' : DB.t) (request : Request.t) (kw : kwargs)
    (old : list Annotation) (cls : annotation_class) (a : Annotation) :
  AnnotationsAPI_get_queryset db kw = Ok old →
  AnnotationsAPI_post db request kw = (db', Ok (Response (AnnotationSerializerData cls a))) →
  AnnotationsAPI_get_queryset db' kw = Ok (old ++ [a]).
Proof.
  intros Hold Hpost. unfold AnnotationsAPI_post in Hpost.
  destruct (AnnotationsAPI_post_annotation db request kw) as [[cls0 a0]|e] eqn:Hbuilt;
    [|by inversion Hpost].
  apply post_annotation_iff in Hbuilt
    as (doc & project & Hdocid & Hdoc & Hkw & Hp & Hinst & ->).
  apply post_instance_class in Hinst as [Hcls Hadoc].
  destruct (Annotation_insert_added db a0) as (Hadd & Hcls' & _ & _ & Hdoc').
  destruct (Annotation_insert db a0) as [db1 saved]. simpl in *.
  injection Hpost as <- <- <-.
  pose proof (objects_all_added _ _ _ Hadd) as Hobjs.
  destruct Hadd as (_ & Hprojects & _ & Hdocs & _).
  unfold AnnotationsAPI_get_queryset in *.
  rewrite (getitem_Some _ _ _ Hkw) in *. simpl in *.
  rewrite (get_project_unchanged db db1 _ Hprojects). rewrite Hp in *. simpl in *.
  rewrite (getitem_Some _ _ _ Hdocid) in *. simpl in *. rewrite Hdocs.
  apply bind_Ok in Hold as (document & Hdocument & [= <-]).
  rewrite Hdocument. simpl. f_equal.
  assert (Hid : Document.id document = Document.id doc).
  { apply get_object_or_404_elem in Hdocument.
    assert (Hin : document ∈ filter (λ d, Document.id d = Document.id doc ∧
                                          Document.project d = Project.id project)
                                    (DB.documents db)) by (rewrite Hdocument; set_solver).
    by apply list_elem_of_filter in Hin as [[? _] _]. }
  unfold get_annotations. rewrite Hcls, <-Hcls', Hobjs, Hcls', filter_app.
  f_equal. rewrite filter_cons_True by congruence. done.
Qed.

Lemma post_then_list_annotations_witness :
  AnnotationsAPI_get_queryset
    (AnnotationsAPI_post sample_db
       (sample_request "POST" (AuthUser bob) [("label_id", VInt 2)]%string)
       (sample_kwargs [("project_id", 1); ("doc_id", 1)]%string)).1
    (sample_kwargs [("project_id", 1); ("doc_id", 1)]%string)
  = Ok ((ADoc <$> DB.doc_annotations sample_db) ++
        [ADoc {| DocumentAnnotation.id := 3; DocumentAnnotation.document := 1;
                 DocumentAnnotation.label := 2; DocumentAnnotation.manual := true;
                 DocumentAnnotation.user := 2 |}]).
Proof.
  apply (post_then_list_annotations sample_db _
           (sample_request "POST" (AuthUser bob) [("label_id", VInt 2)]%string)
           (sample_kwargs [("project_id", 1); ("doc_id", 1)]%string)
           (ADoc <$> DB.doc_annotations sample_db) DocumentAnnotationCls).
  - vm_compute. reflexivity.
  - vm_compute. reflexivity.
Defined.

Lemma get_label_elem (db : DB.t) (pk : option Z) (label : Label.t) :
  get_label db pk = Ok label → label ∈ DB.labels db.
Proof.
  unfold get_label. intros H%get_object_or_404_elem.
  assert (Hin : label ∈ filter (λ l, pk_is pk (Label.id l) = true) (DB.labels db))
    by (rewrite H; set_solver).
  by apply list_elem_of_filter in Hin as [_ ?].
Qed.

(** Creating annotations keeps the references of the database sound: when
    every label-bearing annotation row names an existing label and an
    existing user, and the requesting user has a row, this still holds
    after a POST that creates an annotation. *)
Theorem post_keeps_keys_resolved
    (db db' : DB.t) (request : Request.t) (kw : kwargs) (resp : response) :
  keys_resolve db →
  (∀ u, Request.user request = AuthUser u → User.id u ∈ User.id <$> DB.users db) →
  AnnotationsAPI_post db request kw = (db', Ok resp) →
  keys_resolve db'.
Proof.
  intros (Hlabels & Husers & Hdoc & Hseq) Huser Hpost.
  unfold AnnotationsAPI_post in Hpost.
  destruct (AnnotationsAPI_post_annotation db request kw) as [[cls0 a0]|e] eqn:Hbuilt;
    [|by inversion Hpost].
  apply post_annotation_iff in Hbuilt
    as (doc & project & _ & _ & _ & _ & (u & Hu & Hinst) & ->).
  specialize (Huser u Hu).
  destruct (Annotation_insert_added db a0) as ((Hus & _ & Hls & _ & Hrows) & _).
  destruct (Annotation_insert db a0) as [db1 saved] eqn:Hins. simpl in *.
  injection Hpost as <- _.
  unfold keys_resolve. rewrite Hus, Hls.
  destruct (Project.project_type project) as [| | |tag]; [| | |done].
  - destruct Hinst as (? & ? & label & _ & _ & Hlabel%get_label_elem & ->).
    simpl in Hins. injection Hins as <- <-. simpl in *.
    split_and!; try done. apply Forall_app. split; [done|].
    repeat constructor; simpl; [by apply list_elem_of_fmap_2 | done].
  - destruct Hinst as (? & ? & label & ? & ? & ? & ? & _ & _ & Hlabel%get_label_elem
                       & _ & _ & _ & _ & ->).
    simpl in Hins. injection Hins as <- <-. simpl in *.
    split_and!; try done. apply Forall_app. split; [done|].
    repeat constructor; simpl; [by apply list_elem_of_fmap_2 | done].
  - destruct Hinst as (? & _ & ->).
    simpl in Hins. injection Hins as <- <-. simpl in *. done.
Qed.

Lemma post_keeps_keys_resolved_witness :
  keys_resolve
    (AnnotationsAPI_post sample_db
       (sample_request "POST" (AuthUser bob) [("label_id", VInt 2)]%string)
       (sample_kwargs [("project_id", 1); ("doc_id", 2)]%string)).1.
Proof.
  eapply (post_keeps_keys_resolved sample_db _
            (sample_request "POST" (AuthUser bob) [("label_id", VInt 2)]%string)
            (sample_kwargs [("project_id", 1); ("doc_id", 2)]%string)).
  - exact sample_db_keys_resolve.
  - intros u [= <-]. apply (bool_decide_unpack _). by vm_compute.
  - vm_compute. reflexivity.
Defined.

Lemma get_document_row (db : DB.t) (pk : option Z) (doc : Document.t) :
  get_document db pk = Ok doc → doc ∈ DB.documents db.
Proof.
  unfold get_document. intros H%get_object_or_404_elem.
  assert (Hin : doc ∈ filter (λ d, pk_is pk (Document.id d) = true) (DB.documents db))
    by (rewrite H; set_solver).
  by apply list_elem_of_filter in Hin as [_ ?].
Qed.

Lemma get_project_row (db : DB.t) (pk : option Z) (project : Project.t) :
  get_project db pk = Ok project → project ∈ DB.projects db.
Proof.
  unfold get_project. intros H%get_object_or_404_elem.
  assert (Hin : project ∈ filter (λ p, pk_is pk (Project.id p) = true) (DB.projects db))
    by (rewrite H; set_solver).
  by apply list_elem_of_filter in Hin as [_ ?].
Qed.

(** A POST answers only for rows that exist: whenever it answers, the
    [doc_id] and the [project_id] of the URL are the keys of a document and
    of a project in the tables, the annotation in the response is attached
    to that document, and the label of a DocumentAnnotation or
    SequenceAnnotation is the key of a label in the table.  Nothing ties
    the document or the label to the project. *)
Theorem post_answers_for_existing_rows
    (db db' : DB.t) (request : Request.t) (kw : kwargs) (resp : response) :
  AnnotationsAPI_post db request kw = (db', Ok resp) →
  ∃ doc project a,
    doc ∈ DB.documents db ∧ kw !! "doc_id"%string = Some (Document.id doc) ∧
    project ∈ DB.projects db ∧ kw !! "project_id"%string = Some (Project.id project) ∧
    resp = Response (AnnotationSerializerData (class_of a) a) ∧
    annotation_document a = Document.id doc ∧
    label_row_exists db a.
Proof.
  unfold AnnotationsAPI_post.
  destruct (AnnotationsAPI_post_annotation db request kw) as [[cls a0]|e] eqn:Hbuilt;
    [|by inversion 1].
  apply post_annotation_iff in Hbuilt
    as (doc & project & Hdocid & Hdoc%get_document_row & Hkw & Hp%get_project_row
        & (u & _ & Hinst) & ->).
  destruct (Annotation_insert db a0) as [db1 a] eqn:Hins. intros [= <- <-].
  exists doc, project, a. split_and!; try done.
  - f_equal. f_equal. destruct a0; simpl in Hins; by injection Hins as <- <-.
  - destruct (Project.project_type project) as [| | |tag]; [| | |done].
    + destruct Hinst as (? & ? & ? & _ & _ & _ & ->).
      simpl in Hins. by injection Hins as <- <-.
    + destruct Hinst as (? & ? & ? & ? & ? & ? & ? & _ & _ & _ & _ & _ & _ & _ & ->).
      simpl in Hins. by injection Hins as <- <-.
    + destruct Hinst as (? & _ & ->). simpl in Hins. by injection Hins as <- <-.
  - destruct (Project.project_type project) as [| | |tag]; [| | |done].
    + destruct Hinst as (? & ? & label & _ & _ & Hl%get_label_elem & ->).
      simpl in Hins. injection Hins as <- <-. simpl. eauto.
    + destruct Hinst as (? & ? & label & ? & ? & ? & ? & _ & _ & Hl%get_label_elem
                         & _ & _ & _ & _ & ->).
      simpl in Hins. injection Hins as <- <-. simpl. eauto.
    + destruct Hinst as (? & _ & ->). simpl in Hins. by injection Hins as <- <-.
Qed.

Lemma post_answers_for_existing_rows_witness :
  ∃ doc project a,
    doc ∈ DB.documents sample_db ∧
    sample_kwargs [("project_id", 1); ("doc_id", 4)]%string !! "doc_id"%string
    = Some (Document.id doc) ∧
    project ∈ DB.projects sample_db ∧
    sample_kwargs [("project_id", 1); ("doc_id", 4)]%string !! "project_id"%string
    = Some (Project.id project) ∧
    Response (AnnotationSerializerData DocumentAnnotationCls
      (ADoc {| DocumentAnnotation.id := 3; DocumentAnnotation.document := 4;
               DocumentAnnotation.label := 3; DocumentAnnotation.manual := true;
               DocumentAnnotation.user := 2 |}))
    = Response (AnnotationSerializerData (class_of a) a) ∧
    annotation_document a = Document.id doc ∧
    label_row_exists sample_db a.
Proof.
  eapply (post_answers_for_existing_rows sample_db _
            (sample_request "POST" (AuthUser bob) [("label_id", VInt 3)]%string)
            (sample_kwargs [("project_id", 1); ("doc_id", 4)]%string)).
  vm_compute. reflexivity.
Defined.

(** * More on updating annotations *)

Lemma filter_fmap_key {A} (key : A → Z) (f : A → A) (k : Z) (l : list A) :
  (∀ x, key (f x) = key x) →
  filter (λ x, key x = k) (f <$> l) = f <$> filter (λ x, key x = k) l.
Proof.
  intros Hkey. induction l as [|x l IH]; [done|].
  rewrite fmap_cons, !filter_cons, Hkey.
  destruct (decide (key x = k)); by rewrite IH.
Qed.

(** Update-then-read-back: when a PUT whose body carries the string [s] as
    text answers, one row of the Seq2seqAnnotation table has been replaced,
    in place, by itself with text [s]; the response carries that row, and
    looking the row up by its key afterwards returns it. *)
Theorem put_stores_text_of_request
    (db db' : DB.t) (request : Request.t) (kw : kwargs) (resp : response)
    (s : string) :
  AnnotationAPI_put db request kw = (db', Ok resp) →
  Request.data request !! "text"%string = Some (VStr s) →
  ∃ i row,
    DB.seq2seq_annotations db !! i = Some row ∧
    let updated :=
      {| Seq2seqAnnotation.id := Seq2seqAnnotation.id row;
         Seq2seqAnnotation.document := Seq2seqAnnotation.document row;
         Seq2seqAnnotation.text := s;
         Seq2seqAnnotation.manual := Seq2seqAnnotation.manual row;
         Seq2seqAnnotation.user := Seq2seqAnnotation.user row |} in
    DB.seq2seq_annotations db' !! i = Some updated ∧
    resp = Response (AnnotationSerializerData Seq2seqAnnotationCls (AS2S updated)) ∧
    get_object_or_404
      (filter (λ a, Seq2seqAnnotation.id a = Seq2seqAnnotation.id row)
              (DB.seq2seq_annotations db')) = Ok updated.
Proof.
  unfold AnnotationAPI_put. intros Hput Htext.
  destruct (AnnotationAPI_put_annotation db request kw) as [[cls a]|e] eqn:H;
    [|by inversion Hput].
  injection Hput as <- <-.
  unfold AnnotationAPI_put_annotation in H.
  do 4 apply bind_Ok in H as (? & _ & H).
  apply bind_Ok in H as (cls' & Hser & H).
  apply bind_Ok in H as (a' & H & [= <- <-]).
  destruct (is_type_of _ Seq2seq) eqn:Hty; [|done].
  assert (cls' = Seq2seqAnnotationCls) as ->.
  { unfold get_annotation_serializer, get_annotation_class, is_type_of in *.
    apply bool_decide_eq_true in Hty. rewrite Hty in Hser. simpl in Hser. congruence. }
  apply bind_Ok in H as (text & Htext'%getitem_Ok & H).
  rewrite Htext in Htext'. injection Htext' as <-.
  apply bind_Ok in H as (id & _ & H).
  apply bind_Ok in H as (pk & _ & H).
  apply bind_Ok in H as (row & Hrow%get_object_or_404_elem & [= <-]).
  assert (Hin : row ∈ filter (λ a, Seq2seqAnnotation.id a = pk)
                             (DB.seq2seq_annotations db)) by (rewrite Hrow; set_solver).
  apply list_elem_of_filter in Hin as [Hpk Hin].
  apply list_elem_of_lookup in Hin as [i Hi].
  exists i, row. split; [done|]. simpl. split_and!.
  - rewrite list_lookup_fmap, Hi. simpl. by rewrite bool_decide_eq_true_2.
  - done.
  - rewrite (filter_fmap_key Seq2seqAnnotation.id).
    + rewrite Hpk, Hrow. simpl. by rewrite bool_decide_eq_true_2.
    + intros r. by case_bool_decide.
Qed.

Lemma put_stores_text_of_request_witness :
  ∃ i row,
    DB.seq2seq_annotations sample_db !! i = Some row ∧
    let updated :=
      {| Seq2seqAnnotation.id := Seq2seqAnnotation.id row;
         Seq2seqAnnotation.document := Seq2seqAnnotation.document row;
         Seq2seqAnnotation.text := "salut";
         Seq2seqAnnotation.manual := Seq2seqAnnotation.manual row;
         Seq2seqAnnotation.user := Seq2seqAnnotation.user row |} in
    DB.seq2seq_annotations
      (AnnotationAPI_put sample_db
         (sample_request "PUT" (AuthUser bob) [("id", VInt 1); ("text", VStr "salut")]%string)
         (sample_kwargs [("project_id", 3); ("doc_id", 4); ("annotation_id", 1)]%string)).1
      !! i = Some updated ∧
    Response (AnnotationSerializerData Seq2seqAnnotationCls
      (AS2S {| Seq2seqAnnotation.id := 1; Seq2seqAnnotation.document := 4;
               Seq2seqAnnotation.text := "salut"; Seq2seqAnnotation.manual := true;
               Seq2seqAnnotation.user := 2 |}))
    = Response (AnnotationSerializerData Seq2seqAnnotationCls (AS2S updated)) ∧
    get_object_or_404
      (filter (λ a, Seq2seqAnnotation.id a = Seq2seqAnnotation.id row)
              (DB.seq2seq_annotations
                 (AnnotationAPI_put sample_db
                    (sample_request "PUT" (AuthUser bob)
                       [("id", VInt 1); ("text", VStr "salut")]%string)
                    (sample_kwargs [("project_id", 3); ("doc_id", 4);
                                    ("annotation_id", 1)]%string)).1)) = Ok updated.
Proof.
  apply (put_stores_text_of_request sample_db _
           (sample_request "PUT" (AuthUser bob) [("id", VInt 1); ("text", VStr "salut")]%string)
           (sample_kwargs [("project_id", 3); ("doc_id", 4); ("annotation_id", 1)]%string)).
  - vm_compute. reflexivity.
  - vm_compute. reflexivity.
Defined.

(** The PUT handler never reads the [annotation_id] of the URL, the key
    that IsOwnAnnotation checked: whatever that key is, the handler does the
    same, updating the annotation that the request body names. *)
Theorem put_ignores_annotation_id_of_url
    (db : DB.t) (request : Request.t) (kw : kwargs) (n : Z) :
  AnnotationAPI_put db request (<["annotation_id"%string := n]> kw)
  = AnnotationAPI_put db request kw ∧
  AnnotationAPI_put db request (delete "annotation_id"%string kw)
  = AnnotationAPI_put db request kw.
Proof.
  unfold AnnotationAPI_put, AnnotationAPI_put_annotation, getitem.
  by rewrite !lookup_insert_ne, !lookup_delete_ne.
Qed.

(** A database in which alice and bob each wrote a translation. *)
Example put_overwrites_annotation_of_other_user :
  let db :=
    {| DB.users := DB.users sample_db; DB.projects := DB.projects sample_db;
       DB.labels := DB.labels sample_db; DB.documents := DB.documents sample_db;
       DB.doc_annotations := []; DB.seq_annotations := [];
       DB.seq2seq_annotations :=
         [ {| Seq2seqAnnotation.id := 1; Seq2seqAnnotation.document := 4;
              Seq2seqAnnotation.text := "bonjour"; Seq2seqAnnotation.manual := true;
              Seq2seqAnnotation.user := 2 |};
           {| Seq2seqAnnotation.id := 2; Seq2seqAnnotation.document := 4;
              Seq2seqAnnotation.text := "salut"; Seq2seqAnnotation.manual := true;
              Seq2seqAnnotation.user := 1 |} ] |} in
  DB.seq2seq_annotations
    (AnnotationAPI_dispatch_put db
       (sample_request "PUT" (AuthUser bob) [("id", VInt 2); ("text", VStr "x")]%string)
       (sample_kwargs [("project_id", 3); ("doc_id", 4); ("annotation_id", 1)]%string)).1
  = [ {| Seq2seqAnnotation.id := 1; Seq2seqAnnotation.document := 4;
         Seq2seqAnnotation.text := "bonjour"; Seq2seqAnnotation.manual := true;
         Seq2seqAnnotation.user := 2 |};
      {| Seq2seqAnnotation.id := 2; Seq2seqAnnotation.document := 4;
         Seq2seqAnnotation.text := "x"; Seq2seqAnnotation.manual := true;
         Seq2seqAnnotation.user := 1 |} ].
Proof. vm_compute. reflexivity. Qed.

(** A PUT that answers changes texts of sequence-to-sequence annotations
    and nothing else: the other tables are untouched, no row is added or
    removed, and every row keeps its key, document, manual flag and
    author; a row whose key is not the one of the request body keeps its
    text too. *)
Theorem put_changes_only_text
    (db db' : DB.t) (request : Request.t) (kw : kwargs) (resp : response) :
  AnnotationAPI_put db request kw = (db', Ok resp) →
  DB.users db' = DB.users db ∧ DB.projects db' = DB.projects db ∧
  DB.labels db' = DB.labels db ∧ DB.documents db' = DB.documents db ∧
  DB.doc_annotations db' = DB.doc_annotations db ∧
  DB.seq_annotations db' = DB.seq_annotations db ∧
  (λ r, (Seq2seqAnnotation.id r, Seq2seqAnnotation.document r,
         Seq2seqAnnotation.manual r, Seq2seqAnnotation.user r))
    <$> DB.seq2seq_annotations db'
  = (λ r, (Seq2seqAnnotation.id r, Seq2seqAnnotation.document r,
           Seq2seqAnnotation.manual r, Seq2seqAnnotation.user r))
    <$> DB.seq2seq_annotations db ∧
  ∃ id pk,
    Request.data request !! "id"%string = Some id ∧ int_of_value id = Ok pk ∧
    ∀ i r, DB.seq2seq_annotations db !! i = Some r → Seq2seqAnnotation.id r ≠ pk →
           DB.seq2seq_annotations db' !! i = Some r.
Proof.
  unfold AnnotationAPI_put.
  destruct (AnnotationAPI_put_annotation db request kw) as [[cls a]|e] eqn:H;
    [|by inversion 1].
  intros [= <- _]. simpl.
  unfold AnnotationAPI_put_annotation in H.
  do 5 apply bind_Ok in H as (? & _ & H).
  apply bind_Ok in H as (a' & H & [= _ <-]).
  destruct (is_type_of _ Seq2seq); [|done].
  apply bind_Ok in H as (text & _ & H).
  apply bind_Ok in H as (id & Hid%getitem_Ok & H).
  apply bind_Ok in H as (pk & Hpk & H).
  apply bind_Ok in H as (row & Hrow%get_object_or_404_elem & [= <-]).
  assert (Hrowpk : Seq2seqAnnotation.id row = pk).
  { assert (Hin : row ∈ filter (λ a, Seq2seqAnnotation.id a = pk)
                               (DB.seq2seq_annotations db)) by (rewrite Hrow; set_solver).
    by apply list_elem_of_filter in Hin as [? _]. }
  assert (Honly : ∀ r, r ∈ DB.seq2seq_annotations db →
                       Seq2seqAnnotation.id r = pk → r = row).
  { intros r Hr Hrpk.
    assert (Hin : r ∈ filter (λ a, Seq2seqAnnotation.id a = pk)
                             (DB.seq2seq_annotations db)) by by apply list_elem_of_filter.
    rewrite Hrow in Hin. by apply list_elem_of_singleton in Hin. }
  split_and!; try done.
  - apply list_eq. intros i. rewrite !list_lookup_fmap.
    destruct (DB.seq2seq_annotations db !! i) as [r|] eqn:Hr; simpl; [|done].
    case_bool_decide as Hri; [|done]. simpl in Hri.
    rewrite (Honly r); [done | by eapply list_elem_of_lookup_2 | congruence].
  - exists id, pk. split_and!; try done.
    intros i r Hr Hne. rewrite list_lookup_fmap, Hr. simpl.
    rewrite bool_decide_eq_false_2; [done|]. simpl. congruence.
Qed.

Lemma put_changes_only_text_witness :
  let db' :=
    (AnnotationAPI_put sample_db
       (sample_request "PUT" (AuthUser bob) [("id", VInt 1); ("text", VStr "salut")]%string)
       (sample_kwargs [("project_id", 3); ("doc_id", 4); ("annotation_id", 1)]%string)).1 in
  DB.users db' = DB.users sample_db ∧ DB.projects db' = DB.projects sample_db ∧
  DB.labels db' = DB.labels sample_db ∧ DB.documents db' = DB.documents sample_db ∧
  DB.doc_annotations db' = DB.doc_annotations sample_db ∧
  DB.seq_annotations db' = DB.seq_annotations sample_db ∧
  (λ r, (Seq2seqAnnotation.id r, Seq2seqAnnotation.document r,
         Seq2seqAnnotation.manual r, Seq2seqAnnotation.user r))
    <$> DB.seq2seq_annotations db'
  = (λ r, (Seq2seqAnnotation.id r, Seq2seqAnnotation.document r,
           Seq2seqAnnotation.manual r, Seq2seqAnnotation.user r))
    <$> DB.seq2seq_annotations sample_db ∧
  ∃ id pk,
    Request.data
      (sample_request "PUT" (AuthUser bob) [("id", VInt 1); ("text", VStr "salut")]%string)
      !! "id"%string = Some id ∧ int_of_value id = Ok pk ∧
    ∀ i r, DB.seq2seq_annotations sample_db !! i = Some r → Seq2seqAnnotation.id r ≠ pk →
           DB.seq2seq_annotations db' !! i = Some r.
Proof.
  eapply (put_changes_only_text sample_db _
            (sample_request "PUT" (AuthUser bob) [("id", VInt 1); ("text", VStr "salut")]%string)
            (sample_kwargs [("project_id", 3); ("doc_id", 4); ("annotation_id", 1)]%string)).
  vm_compute. reflexivity.
Defined.

(** On a document-classification or sequence-labeling project the PUT
    handler binds no annotation: whenever the document and the project of
    the URL exist, it ends in UnboundLocalError, whatever the request
    holds, and changes nothing. *)
Theorem put_to_label_bearing_project_is_unbound
    (db : DB.t) (request : Request.t) (kw : kwargs)
    (doc_id project_id : Z) (doc : Document.t) (project : Project.t) :
  kw !! "doc_id"%string = Some doc_id →
  get_document db (Some doc_id) = Ok doc →
  kw !! "project_id"%string = Some project_id →
  get_project db (Some project_id) = Ok project →
  label_bearing project →
  AnnotationAPI_put db request kw = (db, Raise UnboundLocalError).
Proof.
  intros Hdocid Hdoc Hkw Hp Hty.
  unfold AnnotationAPI_put, AnnotationAPI_put_annotation.
  rewrite (getitem_Some _ _ _ Hdocid). simpl. rewrite Hdoc. simpl.
  rewrite (getitem_Some _ _ _ Hkw). simpl. rewrite Hp. simpl.
  unfold get_annotation_serializer, get_annotation_class, is_type_of.
  by destruct Hty as [-> | ->].
Qed.

Lemma put_to_label_bearing_project_is_unbound_witness :
  AnnotationAPI_put sample_db
    (sample_request "PUT" (AuthUser alice) [("id", VInt 1); ("label_id", VInt 3)]%string)
    (sample_kwargs [("project_id", 2); ("doc_id", 3); ("annotation_id", 1)]%string)
  = (sample_db, Raise UnboundLocalError).
Proof.
  apply (put_to_label_bearing_project_is_unbound sample_db
           (sample_request "PUT" (AuthUser alice) [("id", VInt 1); ("label_id", VInt 3)]%string)
           (sample_kwargs [("project_id", 2); ("doc_id", 3); ("annotation_id", 1)]%string)
           3 2 {| Document.id := 3; Document.text := "John"; Document.project := 2 |} ner).
  - vm_compute. reflexivity.
  - vm_compute. reflexivity.
  - vm_compute. reflexivity.
  - vm_compute. reflexivity.
  - right. reflexivity.
Defined.

(** * More on statistics, progress and the project list *)

Lemma stats_of_label_bearing_project_witness :
  ProjectStatsAPI_get sample_db (sample_kwargs [("project_id", 1)]) =
    Ok (Response (Data (stats_json
          (Label.text <$> project_labels_all sample_db news)
          (count_label sample_db news <$> (Label.text <$> project_labels_all sample_db news))
          (User.username <$> project_users_all sample_db news)
          (count_author sample_db news
             <$> (User.username <$> project_users_all sample_db news))))).
Proof.
  apply (stats_of_label_bearing_project sample_db (sample_kwargs [("project_id", 1)]) 1 news).
  - vm_compute. reflexivity.
  - vm_compute. reflexivity.
  - exact sample_db_keys_resolve.
  - left. reflexivity.
Defined.

Lemma for_each_raises {A B} (g : A → result (list B)) (e : exn) (xs : list A) :
  Forall (λ x, g x = Ok [] ∨ g x = Raise e) xs →
  Exists (λ x, g x = Raise e) xs →
  for_each g xs = Raise e.
Proof.
  induction xs as [|x xs IH]; [by intros _ ?%Exists_nil|].
  intros [Hx Hxs]%Forall_cons Hex. simpl.
  destruct Hx as [Hx | Hx]; rewrite Hx; simpl; [|done].
  apply Exists_cons in Hex as [Hex | Hex]; [congruence|].
  by rewrite IH.
Qed.

Lemma for_each_all_raise {A B} (f : A → result B) (e : exn) (xs : list A) :
  Forall (λ x, f x = Raise e) xs →
  for_each f xs = Ok [] ∧ xs = [] ∨ for_each f xs = Raise e ∧ xs ≠ [].
Proof.
  destruct xs as [|x xs]; [by left|].
  intros [Hx _]%Forall_cons. right. simpl. by rewrite Hx.
Qed.

(** On a sequence-to-sequence project that has at least one annotation the
    stats endpoint never answers: reading the label of the first annotation
    it meets ends the request in AttributeError. *)
Theorem stats_of_annotated_seq2seq_project_raise
    (db : DB.t) (kw : kwargs) (project_id : Z) (p : Project.t) :
  kw !! "project_id"%string = Some project_id →
  get_project db (Some project_id) = Ok p →
  Project.project_type p = Seq2seq →
  project_annotations db p ≠ [] →
  ProjectStatsAPI_get db kw = Raise AttributeError.
Proof.
  intros Hkw Hp Hty Hsome. unfold ProjectStatsAPI_get.
  rewrite (getitem_Some _ _ _ Hkw). simpl. rewrite Hp. simpl.
  assert (Hinner : ∀ doc,
            for_each (label_text db) (get_annotations db p doc) = Ok [] ∧
            get_annotations db p doc = [] ∨
            for_each (label_text db) (get_annotations db p doc) = Raise AttributeError ∧
            get_annotations db p doc ≠ []).
  { intros doc. apply for_each_all_raise.
    unfold get_annotations, get_annotation_class, is_type_of. rewrite Hty. simpl.
    apply Forall_forall. intros a [_ Ha]%list_elem_of_filter.
    apply list_elem_of_fmap in Ha as (row & -> & _). reflexivity. }
  rewrite (for_each_raises
             (λ doc, for_each (label_text db) (get_annotations db p doc))
             AttributeError); [reflexivity | |].
  - apply Forall_forall. intros doc _. destruct (Hinner doc) as [[? _] | [? _]]; eauto.
  - apply Exists_exists.
    destruct (project_annotations db p) as [|a rest] eqn:Hann; [done|].
    assert (Ha : a ∈ project_annotations db p) by (rewrite Hann; set_solver).
    unfold project_annotations in Ha.
    apply list_elem_of_bind in Ha as (doc & Ha & Hdoc).
    exists doc. split; [done|].
    destruct (Hinner doc) as [[_ Hnil] | [? _]]; [|done].
    rewrite Hnil in Ha. by apply elem_of_nil in Ha.
Qed.

Lemma stats_of_annotated_seq2seq_project_raise_witness :
  ProjectStatsAPI_get sample_db (sample_kwargs [("project_id", 3)]) = Raise AttributeError.
Proof.
  apply (stats_of_annotated_seq2seq_project_raise sample_db
           (sample_kwargs [("project_id", 3)]) 3 mt).
  - vm_compute. reflexivity.
  - vm_compute. reflexivity.
  - reflexivity.
  - vm_compute. discriminate.
Defined.

(** Whenever the progress endpoint answers, remaining lies between 0 and
    total. *)
Theorem progress_remaining_at_most_total
    (db : DB.t) (request : Request.t) (pk : option Z) (resp : response) :
  ProjectViewSet_progress db request pk = Ok resp →
  ∃ total remaining,
    resp = Response (Data (JObject [("total"%string, JNum total);
                                    ("remaining"%string, JNum remaining)])) ∧
    0 ≤ remaining ≤ total.
Proof.
  unfold ProjectViewSet_progress. intros H.
  apply bind_Ok in H as (project & _ & [= <-]).
  eexists _, _. split; [reflexivity|].
  unfold get_documents. split; [lia|].
  apply inj_le, length_filter.
Qed.

Lemma progress_remaining_at_most_total_witness :
  ∃ total remaining,
    Response (Data (JObject [("total"%string, JNum 1); ("remaining"%string, JNum 0)]))
    = Response (Data (JObject [("total"%string, JNum total);
                               ("remaining"%string, JNum remaining)])) ∧
    0 ≤ remaining ≤ total.
Proof.
  apply (progress_remaining_at_most_total sample_db
           (sample_request "GET" (AuthUser alice) []) (Some 2)).
  vm_compute. reflexivity.
Defined.

Lemma prefix_refl (s : string) : String.prefix s s = true.
Proof.
  induction s as [|c s IH]; [done|]. simpl.
  by destruct (Ascii.ascii_dec c c).
Qed.

Lemma contains_refl (s : string) : contains s s = true.
Proof.
  destruct s as [|c s]; [done|].
  change (contains (String c s) (String c s))
    with (String.prefix (String c s) (String c s) || contains s (String c s)).
  by rewrite prefix_refl.
Qed.

(** The project list of a logged-in user holds exactly the projects that
    have a member whose key, written in decimal, contains the user's key;
    in particular it holds every project the user is a member of. *)
Theorem project_list_holds_projects_of_member
    (db : DB.t) (request : Request.t) (u : User.t) :
  Request.user request = AuthUser u →
  ∃ queryset,
    ProjectViewSet_get_queryset db request = Ok queryset ∧
    (∀ p, p ∈ queryset ↔
          p ∈ DB.projects db ∧
          ∃ m, m ∈ project_users_all db p ∧
               contains (pretty (User.id m)) (pretty (User.id u)) = true) ∧
    (∀ p, p ∈ DB.projects db → User.id u ∈ Project.users p →
          User.id u ∈ User.id <$> DB.users db → p ∈ queryset).
Proof.
  intros Hu. unfold ProjectViewSet_get_queryset. rewrite Hu.
  eexists. split; [reflexivity|].
  assert (Hiff : ∀ p,
    p ∈ (p ← DB.projects db; m ← project_users_all db p;
         if contains (pretty (User.id m)) (pretty (User.id u)) then [p] else []) ↔
    p ∈ DB.projects db ∧
    ∃ m, m ∈ project_users_all db p ∧
         contains (pretty (User.id m)) (pretty (User.id u)) = true).
  { intros p. rewrite list_elem_of_bind. split.
    - intros (q & Hin & Hq). apply list_elem_of_bind in Hin as (m & Hin & Hm).
      destruct (contains _ _) eqn:Hc; [|by apply elem_of_nil in Hin].
      apply list_elem_of_singleton in Hin as ->. eauto.
    - intros (Hp & m & Hm & Hc). exists p. split; [|done].
      apply list_elem_of_bind. exists m. split; [|done].
      rewrite Hc. by apply list_elem_of_singleton. }
  split; [exact Hiff|].
  intros p Hp Hmember Hrow. apply Hiff. split; [done|].
  apply list_elem_of_fmap in Hrow as (m & Hid & Hm).
  exists m. split.
  - unfold project_users_all. apply list_elem_of_filter. split; [congruence | done].
  - rewrite <-Hid. apply contains_refl.
Qed.

Lemma project_list_holds_projects_of_member_witness :
  ∃ queryset,
    ProjectViewSet_get_queryset crowded_db (sample_request "GET" (AuthUser alice) [])
    = Ok queryset ∧
    (∀ p, p ∈ queryset ↔
          p ∈ DB.projects crowded_db ∧
          ∃ m, m ∈ project_users_all crowded_db p ∧
               contains (pretty (User.id m)) (pretty (User.id alice)) = true) ∧
    (∀ p, p ∈ DB.projects crowded_db → User.id alice ∈ Project.users p →
          User.id alice ∈ User.id <$> DB.users crowded_db → p ∈ queryset).
Proof.
  apply (project_list_holds_projects_of_member crowded_db
           (sample_request "GET" (AuthUser alice) []) alice).
  reflexivity.
Defined.

(** * The lookups of the other views *)

Lemma filter_singleton_only {A} (P : A → Prop) `{!∀ x, Decision (P x)}
    (l : list A) (x : A) :
  filter P l = [x] → ∀ y, y ∈ l → P y → y = x.
Proof.
  intros Hf y Hy HP.
  assert (Hin : y ∈ filter P l) by by apply list_elem_of_filter.
  rewrite Hf in Hin. by apply list_elem_of_singleton in Hin.
Qed.

Lemma get_document_elem (db : DB.t) (pk : option Z) (doc : Document.t) :
  get_document db pk = Ok doc →
  filter (λ d, pk_is pk (Document.id d) = true) (DB.documents db) = [doc].
Proof. unfold get_document. apply get_object_or_404_elem. Qed.

(** The documents view lists all documents of the project when the query
    has no [is_checked] or an empty one; with [is_checked=true] it lists,
    each once, exactly the project's documents that have no annotation, and
    with any other value exactly those that have one. *)
Theorem documents_view_filters_by_is_checked
    (db : DB.t) (query_params : gmap string string) (kw : kwargs)
    (project_id : Z) (p : Project.t) :
  kw !! "project_id"%string = Some project_id →
  get_project db (Some project_id) = Ok p →
  (truthy (query_params !! "is_checked"%string) = false →
   ProjectDocsAPI_get_queryset db query_params kw = Ok (project_documents_all db p)) ∧
  (∀ flag,
     query_params !! "is_checked"%string = Some flag → flag ≠ ""%string →
     ∃ listed,
       ProjectDocsAPI_get_queryset db query_params kw = Ok listed ∧
       NoDup listed ∧
       ∀ d, d ∈ listed ↔
            d ∈ project_documents_all db p ∧
            (unannotated db p d ↔ flag = "true"%string)).
Proof.
  intros Hkw Hp. pose proof (get_project_id _ _ _ Hp) as [= Hid].
  unfold ProjectDocsAPI_get_queryset. rewrite (getitem_Some _ _ _ Hkw). simpl.
  split.
  - intros ->. simpl. unfold project_documents_all. by rewrite <-Hid.
  - intros flag Hflag Hne. rewrite Hflag. simpl.
    rewrite bool_decide_eq_false_2 by done. simpl. rewrite Hp. simpl.
    eexists. split; [reflexivity|]. split; [apply NoDup_remove_dups|].
    intros d. rewrite elem_of_remove_dups. unfold get_documents.
    rewrite list_elem_of_filter, <-get_annotations_nil.
    assert (Hflagtrue : Some flag = Some "true"%string ↔ flag = "true"%string).
    { split; [by intros [= ->] | by intros ->]. }
    split.
    + intros [Hcond Hd]. split; [done|].
      rewrite <-Hflagtrue.
      case_bool_decide as Hnil; case_bool_decide as Htrue; try done; tauto.
    + intros [Hd Hcond]. split; [|done].
      rewrite <-Hflagtrue in Hcond.
      case_bool_decide as Hnil; case_bool_decide as Htrue; try done; tauto.
Qed.

Lemma documents_view_filters_by_is_checked_witness :
  (truthy (({[ "is_checked" := "true" ]} : gmap string string) !! "is_checked")%string = false →
   ProjectDocsAPI_get_queryset sample_db {[ "is_checked" := "true" ]}%string
     (sample_kwargs [("project_id", 1)]%string) = Ok (project_documents_all sample_db news)) ∧
  (∀ flag,
     ({[ "is_checked" := "true" ]} : gmap string string) !! "is_checked"%string = Some flag →
     flag ≠ ""%string →
     ∃ listed,
       ProjectDocsAPI_get_queryset sample_db {[ "is_checked" := "true" ]}%string
         (sample_kwargs [("project_id", 1)]%string) = Ok listed ∧
       NoDup listed ∧
       ∀ d, d ∈ listed ↔
            d ∈ project_documents_all sample_db news ∧
            (unannotated sample_db news d ↔ flag = "true"%string)).
Proof.
  apply (documents_view_filters_by_is_checked sample_db {[ "is_checked" := "true" ]}%string
           (sample_kwargs [("project_id", 1)]%string) 1 news).
  - vm_compute. reflexivity.
  - vm_compute. reflexivity.
Defined.

Example documents_checked_true_lists_unannotated :
  ProjectDocsAPI_get_queryset sample_db {[ "is_checked" := "true" ]}%string
    (sample_kwargs [("project_id", 1)]%string)
  = Ok [ {| Document.id := 2; Document.text := "bad"; Document.project := 1 |} ].
Proof. vm_compute. reflexivity. Qed.

(** The single-label view finds a label only inside the project of the
    URL: what it returns has the key and the project of the URL, and when
    no label has both the request ends in Http404. *)
Theorem label_lookup_is_scoped_to_project
    (db : DB.t) (kw : kwargs) (project_id label_id : Z) :
  kw !! "project_id"%string = Some project_id →
  kw !! "label_id"%string = Some label_id →
  (∀ l, ProjectLabelAPI_get_object db kw = Ok l →
        l ∈ DB.labels db ∧ Label.id l = label_id ∧ Label.project l = project_id) ∧
  (Forall (λ l, ¬ (Label.id l = label_id ∧ Label.project l = project_id)) (DB.labels db) →
   ProjectLabelAPI_get_object db kw = Raise Http404).
Proof.
  intros Hkw Hlid. unfold ProjectLabelAPI_get_object, ProjectLabelAPI_get_queryset.
  rewrite (getitem_Some _ _ _ Hlid), (getitem_Some _ _ _ Hkw). simpl. split.
  - intros l Hl%get_object_or_404_elem.
    assert (Hin : l ∈ filter (λ l, Label.id l = label_id)
                    (filter (λ l, Label.project l = project_id) (DB.labels db)))
      by (rewrite Hl; set_solver).
    apply list_elem_of_filter in Hin as [? Hin].
    by apply list_elem_of_filter in Hin as [? ?].
  - intros Hnone.
    assert (filter (λ l, Label.id l = label_id)
              (filter (λ l, Label.project l = project_id) (DB.labels db)) = []) as ->; [|done].
    apply filter_nil_Forall, Forall_forall. intros l Hin Hl.
    apply list_elem_of_filter in Hin as [Hproj Hin].
    rewrite Forall_forall in Hnone. by apply (Hnone l Hin).
Qed.

Lemma label_lookup_is_scoped_to_project_witness :
  (∀ l, ProjectLabelAPI_get_object sample_db
          (sample_kwargs [("project_id", 1); ("label_id", 3)]%string) = Ok l →
        l ∈ DB.labels sample_db ∧ Label.id l = 3 ∧ Label.project l = 1) ∧
  (Forall (λ l, ¬ (Label.id l = 3 ∧ Label.project l = 1)) (DB.labels sample_db) →
   ProjectLabelAPI_get_object sample_db
     (sample_kwargs [("project_id", 1); ("label_id", 3)]%string) = Raise Http404).
Proof.
  apply (label_lookup_is_scoped_to_project sample_db
           (sample_kwargs [("project_id", 1); ("label_id", 3)]%string) 1 3).
  - vm_compute. reflexivity.
  - vm_compute. reflexivity.
Defined.

(** Listing the annotations of a document goes through the project of the
    URL: when the document exists but belongs to another project, the
    request ends in Http404 (the POST handler of the same view makes no
    such check). *)
Theorem annotation_list_requires_document_of_project
    (db : DB.t) (kw : kwargs) (project_id doc_id : Z)
    (p : Project.t) (doc : Document.t) :
  kw !! "project_id"%string = Some project_id →
  get_project db (Some project_id) = Ok p →
  kw !! "doc_id"%string = Some doc_id →
  get_document db (Some doc_id) = Ok doc →
  Document.project doc ≠ project_id →
  AnnotationsAPI_get_queryset db kw = Raise Http404.
Proof.
  intros Hkw Hp Hdocid Hdoc Hne. pose proof (get_project_id _ _ _ Hp) as [= Hid].
  unfold AnnotationsAPI_get_queryset.
  rewrite (getitem_Some _ _ _ Hkw). simpl. rewrite Hp. simpl.
  rewrite (getitem_Some _ _ _ Hdocid). simpl.
  assert (filter (λ d, Document.id d = doc_id ∧ Document.project d = Project.id p)
                 (DB.documents db) = []) as ->; [|done].
  apply filter_nil_Forall, Forall_forall. intros d Hd [Hdid Hdp].
  apply get_document_elem in Hdoc.
  assert (d = doc) as ->.
  { eapply (filter_singleton_only _ _ _ Hdoc); [done|].
    simpl. by apply bool_decide_eq_true. }
  congruence.
Qed.

Lemma annotation_list_requires_document_of_project_witness :
  AnnotationsAPI_get_queryset sample_db
    (sample_kwargs [("project_id", 1); ("doc_id", 4)]%string) = Raise Http404.
Proof.
  apply (annotation_list_requires_document_of_project sample_db
           (sample_kwargs [("project_id", 1); ("doc_id", 4)]%string) 1 4 news
           {| Document.id := 4; Document.text := "hello"; Document.project := 3 |}).
  - vm_compute. reflexivity.
  - vm_compute. reflexivity.
  - vm_compute. reflexivity.
  - vm_compute. reflexivity.
  - vm_compute. discriminate.
Defined.

(** The single-annotation view looks the annotation up among the
    annotations of the document of the URL, in the annotation class of the
    document's own project; when the [project_id] of the URL is that
    project, the annotation it finds is the one IsOwnAnnotation checked, so
    it is the requesting user's own. *)
Theorem annotation_lookup_is_scoped_to_document
    (db : DB.t) (request : Request.t) (kw : kwargs) (a : Annotation) :
  AnnotationAPI_get_object db kw = Ok a →
  (∃ doc project,
     get_document db (kw !! "doc_id"%string) = Ok doc ∧
     document_project db doc = Ok project ∧
     get_annotation_class project = Ok (class_of a) ∧
     annotation_document a = Document.id doc ∧
     kw !! "annotation_id"%string = Some (annotation_id a) ∧
     (check_permissions AnnotationAPI_permission_classes db request kw = Ok () →
      kw !! "project_id"%string = Some (Document.project doc) →
      authored_by a (Request.user request))).
Proof.
  unfold AnnotationAPI_get_object, AnnotationAPI_get_queryset. intros H.
  apply bind_Ok in H as (aid & Haid%getitem_Ok & H).
  apply bind_Ok in H as (queryset & Hq & Ha%get_object_or_404_elem).
  apply bind_Ok in Hq as (doc_id & Hdocid%getitem_Ok & Hq).
  apply bind_Ok in Hq as (doc & Hdoc & Hq).
  apply bind_Ok in Hq as (project & Hproject & [= <-]).
  assert (Hin : a ∈ filter (λ a, annotation_id a = aid) (get_annotations db project doc))
    by (rewrite Ha; set_solver).
  apply list_elem_of_filter in Hin as [Hid Hin].
  unfold get_annotations in Hin.
  destruct (get_annotation_class project) as [cls|] eqn:Hcls; [|by apply elem_of_nil in Hin].
  apply list_elem_of_filter in Hin as [Hadoc Hin].
  assert (Hclass : class_of a = cls).
  { destruct cls; simpl in Hin; apply list_elem_of_fmap in Hin as (? & -> & _); done. }
  exists doc, project. rewrite Hdocid. subst cls.
  split_and!; try done; [congruence|].
  intros Hcheck Hkw.
  apply annotation_view_checks in Hcheck as [_ Hcheck].
  apply IsOwnAnnotation_true_iff in Hcheck
    as (project' & cls' & a' & Hp' & Hcls' & Ha' & Hauthor).
  rewrite Hkw in Hp'.
  assert (project' = project) as ->.
  { unfold get_project in Hp'. apply get_object_or_404_elem in Hp'.
    unfold document_project, queryset_get in Hproject.
    destruct (filter _ (DB.projects db)) as [|q [|? ?]] eqn:Hf in Hproject;
      try discriminate Hproject. injection Hproject as ->.
    assert (Hq : project ∈ filter (λ p, Project.id p = Document.project doc) (DB.projects db))
      by (rewrite Hf; set_solver).
    apply list_elem_of_filter in Hq as [Hqid Hq]. symmetry.
    eapply (filter_singleton_only _ _ _ Hp'); [done|].
    simpl. by apply bool_decide_eq_true. }
  assert (cls' = class_of a) as -> by congruence.
  assert (a = a') as <-; [|done].
  unfold queryset_get in Ha'.
  destruct (filter _ (objects_all db (class_of a))) as [|b [|? ?]] eqn:Hf in Ha';
    try discriminate Ha'. injection Ha' as ->.
  eapply (filter_singleton_only _ _ _ Hf); [done|].
  rewrite Haid. simpl. apply bool_decide_eq_true. congruence.
Qed.

Lemma annotation_lookup_is_scoped_to_document_witness :
  ∃ doc project,
    get_document sample_db
      (sample_kwargs [("project_id", 3); ("doc_id", 4); ("annotation_id", 1)]%string
         !! "doc_id"%string) = Ok doc ∧
    document_project sample_db doc = Ok project ∧
    get_annotation_class project
    = Ok (class_of
            (AS2S {| Seq2seqAnnotation.id := 1; Seq2seqAnnotation.document := 4;
                     Seq2seqAnnotation.text := "bonjour"; Seq2seqAnnotation.manual := true;
                     Seq2seqAnnotation.user := 2 |})) ∧
    annotation_document
      (AS2S {| Seq2seqAnnotation.id := 1; Seq2seqAnnotation.document := 4;
               Seq2seqAnnotation.text := "bonjour"; Seq2seqAnnotation.manual := true;
               Seq2seqAnnotation.user := 2 |}) = Document.id doc ∧
    sample_kwargs [("project_id", 3); ("doc_id", 4); ("annotation_id", 1)]%string
      !! "annotation_id"%string
    = Some (annotation_id
              (AS2S {| Seq2seqAnnotation.id := 1; Seq2seqAnnotation.document := 4;
                       Seq2seqAnnotation.text := "bonjour"; Seq2seqAnnotation.manual := true;
                       Seq2seqAnnotation.user := 2 |})) ∧
    (check_permissions AnnotationAPI_permission_classes sample_db
       (sample_request "GET" (AuthUser bob) [])
       (sample_kwargs [("project_id", 3); ("doc_id", 4); ("annotation_id", 1)]%string)
     = Ok () →
     sample_kwargs [("project_id", 3); ("doc_id", 4); ("annotation_id", 1)]%string
       !! "project_id"%string = Some (Document.project doc) →
     authored_by
       (AS2S {| Seq2seqAnnotation.id := 1; Seq2seqAnnotation.document := 4;
                Seq2seqAnnotation.text := "bonjour"; Seq2seqAnnotation.manual := true;
                Seq2seqAnnotation.user := 2 |})
       (Request.user (sample_request "GET" (AuthUser bob) []))).
Proof.
  apply (annotation_lookup_is_scoped_to_document sample_db
           (sample_request "GET" (AuthUser bob) [])
           (sample_kwargs [("project_id", 3); ("doc_id", 4); ("annotation_id", 1)]%string)).
  vm_compute. reflexivity.
Defined.

(** When the [project_id] of the URL is not the project of the document,
    the two lookups part: bob, who owns annotation 1 of his translation
    project, passes the checks and is handed annotation 1 of a document of
    another project, written by alice. *)
Example annotation_lookup_through_other_project :
  check_permissions AnnotationAPI_permission_classes sample_db
    (sample_request "GET" (AuthUser bob) [])
    (sample_kwargs [("project_id", 3); ("doc_id", 1); ("annotation_id", 1)]%string) = Ok () ∧
  AnnotationAPI_get_object sample_db
    (sample_kwargs [("project_id", 3); ("doc_id", 1); ("annotation_id", 1)]%string)
  = Ok (ADoc {| DocumentAnnotation.id := 1; DocumentAnnotation.document := 1;
                DocumentAnnotation.label := 1; DocumentAnnotation.manual := true;
                DocumentAnnotation.user := 1 |}).
Proof. split; vm_compute; reflexivity. Qed.

(** A GET of a project's labels by a member answers with the labels of
    that project, in the order of the table. *)
Theorem labels_read_returns_project_labels
    (db : DB.t) (request : Request.t) (kw : kwargs) (project : Project.t) :
  get_project db (kw !! "project_id"%string) = Ok project →
  is_project_member db request kw →
  Request.method request = "GET"%string →
  ProjectLabelsAPI_get db request kw
  = Ok (Response (LabelSerializerData (project_labels_all db project))).
Proof.
  intros Hp Hm Hget. unfold ProjectLabelsAPI_get.
  assert (Hsafe : Request.method request ∈ SAFE_METHODS)
    by (rewrite Hget; unfold SAFE_METHODS; set_solver).
  assert (Hok : check_permissions ProjectLabelsAPI_permission_classes db request kw = Ok ()).
  { apply check_permissions_iff. unfold ProjectLabelsAPI_permission_classes.
    rewrite !Forall_cons, Forall_nil. simpl. split_and!; [| |
      f_equal; apply IsAdminUserAndWriteOnly_true_iff; by left | done].
    - f_equal. by eapply member_is_authenticated.
    - by apply IsProjectUser_true_iff. }
  rewrite Hok. simpl. unfold ProjectLabelsAPI_get_queryset.
  pose proof (get_project_id _ _ _ Hp) as Hkw.
  rewrite (getitem_Some _ _ _ Hkw). done.
Qed.

Lemma labels_read_returns_project_labels_witness :
  ProjectLabelsAPI_get sample_db (sample_request "GET" (AuthUser bob) [])
    (sample_kwargs [("project_id", 1)]%string)
  = Ok (Response (LabelSerializerData (project_labels_all sample_db news))).
Proof.
  apply (labels_read_returns_project_labels sample_db
           (sample_request "GET" (AuthUser bob) [])
           (sample_kwargs [("project_id", 1)]%string) news).
  - vm_compute. reflexivity.
  - exists news, bob. split_and!; [vm_compute; reflexivity | reflexivity | set_solver | set_solver].
  - reflexivity.
Defined.
